(** * illustrator-mcp: the tool dispatcher of [illustrator/server.py]

    A shallow embedding of [handle_list_tools], [capture_illustrator],
    [run_illustrator_script] and [handle_call_tool], and the properties of
    the dispatch contract proved about them.

    Python strings are byte strings here (the UTF-8 encoding of the source
    text).  What Python does with the characters outside ASCII by the
    Unicode tables ([str.title], [repr]) is left to the runtime, a record
    of functions.  The two collaborators of the dispatcher are records of outcomes:
    the Automation Bridge (win32com, PIL.ImageGrab) and the Template Store
    (the module [illustrator.prompt]).  Every call into a collaborator may
    return or raise, and is recorded in the [trace] of the world, next to
    the temporary directory the script runner writes to.  [logging] calls
    are write-only and are left out. *)

From Stdlib Require Import Ascii Bool Lia.
From Stdlib Require String.
From stdpp Require Import base strings gmap list.

Set Warnings "-register-all".

(** ** Python strings *)

Module PyStr.

Definition nl : string := String "010"%char EmptyString.
Definition dquote : ascii := "034"%char.
Definition squote : ascii := "039"%char.
Definition backslash : ascii := "092"%char.

(** A string literal of the source given by its UTF-8 bytes. *)
Definition utf8 (bytes : list nat) : string :=
  String.string_of_list_ascii (map ascii_of_nat bytes).

Fixpoint concat_map {A} (f : A -> string) (l : list A) : string :=
  match l with
  | [] => EmptyString
  | x :: l' => f x +:+ concat_map f l'
  end.

(** [sep.join(l)] *)
Fixpoint join (sep : string) (l : list string) : string :=
  match l with
  | [] => EmptyString
  | [x] => x
  | x :: l' => x +:+ sep +:+ join sep l'
  end.

Fixpoint map_chars (f : ascii -> ascii) (s : string) : string :=
  match s with
  | EmptyString => EmptyString
  | String c s' => String (f c) (map_chars f s')
  end.

(** [s.replace(old, new)] for one-character [old] and [new], the only use
    the dispatcher makes of it. *)
Definition replace (old new : ascii) (s : string) : string :=
  map_chars (fun c => if Ascii.eqb c old then new else c) s.

Definition is_upper (c : ascii) : bool :=
  (65 <=? nat_of_ascii c) && (nat_of_ascii c <=? 90).
Definition is_lower (c : ascii) : bool :=
  (97 <=? nat_of_ascii c) && (nat_of_ascii c <=? 122).
Definition to_upper (c : ascii) : ascii :=
  if is_lower c then ascii_of_nat (nat_of_ascii c - 32) else c.
Definition to_lower (c : ascii) : ascii :=
  if is_upper c then ascii_of_nat (nat_of_ascii c + 32) else c.

(** All characters of the string are in ASCII. *)
Fixpoint is_ascii (s : string) : bool :=
  match s with
  | EmptyString => true
  | String c s' => (nat_of_ascii c <? 128) && is_ascii s'
  end.

(** [s.title()] of an ASCII string: a cased character is upper-cased when
    the character before it is not cased and lower-cased when it is.  For
    other strings the case of a character is a matter of Unicode: see
    [str_title]. *)
Fixpoint title_from (previous_is_cased : bool) (s : string) : string :=
  match s with
  | EmptyString => EmptyString
  | String c s' =>
      String (if previous_is_cased then to_lower c else to_upper c)
             (title_from (is_upper c || is_lower c) s')
  end.
Definition title (s : string) : string := title_from false s.

Fixpoint has_char (c : ascii) (s : string) : bool :=
  match s with
  | EmptyString => false
  | String d s' => Ascii.eqb c d || has_char c s'
  end.

Definition hex_digit (n : nat) : ascii :=
  if n <? 10 then ascii_of_nat (48 + n) else ascii_of_nat (87 + n).

(** One character of the [repr] of an ASCII string, with [quote] as the
    delimiter. *)
Definition repr_char (quote c : ascii) : string :=
  let n := nat_of_ascii c in
  if Ascii.eqb c quote || Ascii.eqb c backslash
  then String backslash (String c EmptyString)
  else if n =? 9 then String backslash "t"
  else if n =? 10 then String backslash "n"
  else if n =? 13 then String backslash "r"
  else if (n <? 32) || (n =? 127)
  then String backslash
         (String "x" (String (hex_digit (n / 16))
                        (String (hex_digit (n mod 16)) EmptyString)))
  else String c EmptyString.

Fixpoint repr_chars (quote : ascii) (s : string) : string :=
  match s with
  | EmptyString => EmptyString
  | String c s' => repr_char quote c +:+ repr_chars quote s'
  end.

(** [repr(s)] of an ASCII [str]: single quotes, unless the string has a
    single quote and no double quote.  For other strings, which characters
    are printable is a matter of Unicode: see [str_repr]. *)
Definition repr (s : string) : string :=
  let quote :=
    if has_char squote s && negb (has_char dquote s) then dquote else squote in
  String quote (repr_chars quote s) +:+ String quote EmptyString.

(** [repr(l)] of a list of ASCII [str], which is also its [str(l)]. *)
Definition repr_list (l : list string) : string :=
  "[" +:+ join ", " (map repr l) +:+ "]".

(** [sub in s] *)
Definition contains (sub s : string) : Prop :=
  exists before after, s = before +:+ sub +:+ after.

Fixpoint starts_with (p s : string) : bool :=
  match p, s with
  | EmptyString, _ => true
  | String a p', String b s' => Ascii.eqb a b && starts_with p' s'
  | String _ _, EmptyString => false
  end.

Fixpoint containsb (sub s : string) : bool :=
  starts_with sub s ||
  match s with
  | EmptyString => false
  | String _ s' => containsb sub s'
  end.

End PyStr.

(** ** The Unicode side of the Python runtime *)

(** [str.title] and [repr] follow the Unicode character database for the
    characters outside ASCII (which are cased, which are printable).  On
    such strings they are taken as they are, as functions of the runtime;
    on ASCII strings they are the functions of [PyStr]. *)
Record PyRuntime : Type := {
  unicode_title : string -> string;
  unicode_repr : string -> string
}.

(** [s.title()] *)
Definition str_title (python : PyRuntime) (s : string) : string :=
  if PyStr.is_ascii s then PyStr.title s else unicode_title python s.

(** [repr(s)] of a [str] *)
Definition str_repr (python : PyRuntime) (s : string) : string :=
  if PyStr.is_ascii s then PyStr.repr s else unicode_repr python s.

(** [repr(l)] of a list of [str], which is also its [str(l)]. *)
Definition list_repr (python : PyRuntime) (l : list string) : string :=
  "[" +:+ PyStr.join ", " (map (str_repr python) l) +:+ "]".

(** ** Python values, exceptions and results *)

(** A value of the argument bag: a string or a nested mapping.  A string
    is given by its UTF-8 encoding, so the strings of the model are the
    [str] that have one: a [str] with a lone surrogate is not among
    them. *)
Inductive value : Type :=
| VStr (s : string)
| VMap (m : gmap string value).

(** Truth value of a Python object: empty strings and empty mappings are
    false, [None] is false. *)
Definition truthy (v : value) : bool :=
  match v with
  | VStr s => negb (String.eqb s "")
  | VMap m => negb (bool_decide (size m = 0))
  end.

Definition truthy_opt (v : option value) : bool :=
  match v with
  | None => false
  | Some v => truthy v
  end.

(** [arguments : dict | None] *)
Definition truthy_args (arguments : option (gmap string value)) : bool :=
  match arguments with
  | None => false
  | Some m => negb (bool_decide (size m = 0))
  end.

(** [arguments.get(key) if arguments else None] *)
Definition args_get (arguments : option (gmap string value)) (key : string)
  : option value :=
  match arguments with
  | Some m => if truthy_args arguments then m !! key else None
  | None => None
  end.

Inductive exn_class : Type :=
| KeyError | ValueError | TypeError | AttributeError | FileNotFoundError
| OtherException.

Definition exn_class_eqb (a b : exn_class) : bool :=
  match a, b with
  | KeyError, KeyError | ValueError, ValueError | TypeError, TypeError
  | AttributeError, AttributeError | FileNotFoundError, FileNotFoundError
  | OtherException, OtherException => true
  | _, _ => false
  end.

(** An instance of [Exception]: its class and its [str(e)].  Signals that
    derive from [BaseException] only are not exceptions in this sense. *)
Record exn : Type := Exn { exn_cls : exn_class; exn_str : string }.

(** [KeyError(key)]: its [str] is the [repr] of the key. *)
Definition key_error (python : PyRuntime) (key : string) : exn :=
  Exn KeyError (str_repr python key).

Inductive result (A : Type) : Type :=
| Return (a : A)
| Raise (e : exn).
Arguments Return {A} a.
Arguments Raise {A} e.

Definition raised {A} (r : result A) : option exn :=
  match r with
  | Return _ => None
  | Raise e => Some e
  end.

(** ** Content items: [types.TextContent] and [types.ImageContent] *)

Inductive content : Type :=
| TextContent (text : string)
| ImageContent (mimeType : string) (data : string).

Definition is_text (c : content) : bool :=
  match c with TextContent _ => true | ImageContent _ _ => false end.
Definition is_image (c : content) : bool := negb (is_text c).

(** ** The world: temporary files and the calls made to the collaborators *)

Definition path : Type := positive.

Inductive call : Type :=
(* Automation Bridge *)
| Call_Dispatch (prog_id : string)
| Call_AppActivate (title : string)
| Call_sleep (seconds : nat)
| Call_ImageGrab_grab
| Call_screenshot_save
| Call_DoJavaScriptFile (jsx_file_path : path)
(* Template Store *)
| Call_get_system_prompt
| Call_get_prompt_suggestions
| Call_get_advanced_templates
| Call_get_prompting_tips
| Call_display_help
| Call_format_advanced_template (template_type : string) (parameters : value).

(** A call and the exception it raised, if any. *)
Definition event : Type := call * option exn.

Record world : Type := World {
  fs : gmap path string;   (* the temporary directory: path to content *)
  trace : list event       (* calls to the collaborators, oldest first *)
}.

(** ** Computations: state passing with exceptions *)

Definition M (A : Type) : Type := world -> result A * world.

Definition ret {A} (a : A) : M A := fun w => (Return a, w).

Definition raise {A} (e : exn) : M A := fun w => (Raise e, w).

Definition bind {A B} (c : M A) (k : A -> M B) : M B :=
  fun w =>
    match c w with
    | (Return a, w') => k a w'
    | (Raise e, w') => (Raise e, w')
    end.

Notation "x <- c ;; k" := (bind c (fun x => k))
  (at level 100, c at next level, right associativity).
Notation "c ;;; k" := (bind c (fun _ => k))
  (at level 100, right associativity).

(** [try: body / except Exception as e: handler e].  What the body did to
    the world before it raised stays done. *)
Definition try_except {A} (body : M A) (handler : exn -> M A) : M A :=
  fun w =>
    match body w with
    | (Return a, w') => (Return a, w')
    | (Raise e, w') => handler e w'
    end.

(** [try: body / except cls as e: handler e]: other classes propagate. *)
Definition try_except_class {A} (cls : exn_class) (body : M A)
    (handler : exn -> M A) : M A :=
  try_except body
    (fun e => if exn_class_eqb (exn_cls e) cls then handler e else raise e).

(** A call into a collaborator with outcome [r], recorded in the trace. *)
Definition invoke {A} (c : call) (r : result A) : M A :=
  fun w => (r, World (fs w) (trace w ++ [(c, raised r)])).

(** A call into a collaborator whose outcome depends on the files. *)
Definition invoke_fs {A} (c : call) (r : gmap path string -> result A) : M A :=
  fun w => invoke c (r (fs w)) w.

(** Entering [tempfile.NamedTemporaryFile(suffix=".jsx", delete=False)]:
    a new, empty file under a name not in use. *)
Definition NamedTemporaryFile : M path :=
  fun w =>
    let jsx_file := fresh (dom (fs w)) in
    (Return jsx_file, World (<[jsx_file := EmptyString]> (fs w)) (trace w)).

(** [jsx_file.write(data)] *)
Definition file_write (jsx_file : path) (data : string) : M unit :=
  fun w =>
    (Return tt,
     World (<[jsx_file := default EmptyString (fs w !! jsx_file) +:+ data]> (fs w))
           (trace w)).

(** [os.unlink(p)] *)
Definition os_unlink (p : path) : M unit :=
  fun w =>
    match fs w !! p with
    | Some _ => (Return tt, World (delete p (fs w)) (trace w))
    | None => (Raise (Exn FileNotFoundError "No such file or directory"), w)
    end.

(** [code.encode("utf-8")]: a string of the model is its own encoding (the
    [str] that cannot be encoded are outside the model, see [value]); a
    mapping has no such method. *)
Definition encode_utf8 (code : value) : M string :=
  match code with
  | VStr s => ret s
  | VMap _ => raise (Exn AttributeError "'dict' object has no attribute 'encode'")
  end.

(** Use of a value as a dictionary key ([d.get(v)], [v in d]): a mapping
    is unhashable. *)
Definition hashable (v : value) : M string :=
  match v with
  | VStr s => ret s
  | VMap _ => raise (Exn TypeError "unhashable type: 'dict'")
  end.

(** ** Dictionaries kept in insertion order *)

Definition dict (V : Type) : Type := list (string * V).

Fixpoint dict_get {V} (d : dict V) (key : string) : option V :=
  match d with
  | [] => None
  | (k, v) :: d' => if String.eqb key k then Some v else dict_get d' key
  end.

(** [key in d] *)
Definition dict_in {V} (key : string) (d : dict V) : bool :=
  match dict_get d key with Some _ => true | None => false end.

(** [list(d.keys())] *)
Definition dict_keys {V} (d : dict V) : list string := map fst d.

(** [d[key]] *)
Definition dict_getitem {V} (python : PyRuntime) (d : dict V) (key : string)
  : M V :=
  match dict_get d key with
  | Some v => ret v
  | None => raise (key_error python key)
  end.

(** ** The collaborators *)

(** The Automation Bridge: the outcome of each call the dispatcher makes
    into win32com and PIL.  [WIN32_AVAILABLE] is set when the module is
    loaded, by whether win32com could be imported. *)
Record AutomationBridge : Type := {
  WIN32_AVAILABLE : bool;
  (* win32com.client.Dispatch(prog_id) *)
  Dispatch : string -> result unit;
  (* shell.AppActivate(title) *)
  AppActivate : string -> result unit;
  (* ImageGrab.grab(): the screenshot *)
  ImageGrab_grab : result string;
  (* screenshot.save(buffer, format="JPEG", quality=50, optimize=True);
     buffer.getvalue() *)
  screenshot_save : string -> result string;
  (* base64.b64encode(data).decode("utf-8") *)
  b64encode : string -> string;
  (* illustrator.DoJavaScriptFile(jsx_file_path), reading the file *)
  DoJavaScriptFile : path -> gmap path string -> result unit
}.

(** The Template Store: the functions imported from [illustrator.prompt].
    [format_advanced_template] is the outcome of the call
    [format_advanced_template(template_type, **parameters)]. *)
Record TemplateStore : Type := {
  get_system_prompt : result string;
  get_prompt_suggestions : result (dict (list string));
  get_advanced_templates : result (dict string);
  get_prompting_tips : result (list string);
  display_help : result string;
  format_advanced_template : string -> value -> result string
}.

(** ** The Tool Registry: [handle_list_tools] *)

Record Property : Type := {
  prop_name : string;
  prop_type : string;
  prop_description : string;
  prop_enum : list string
}.

Record Tool : Type := {
  name : string;
  description : string;
  properties : list Property;
  required : list string
}.

Definition category_enum : list string :=
  [ "basic_shapes"; "typography"; "logos"; "illustrations"; "icons";
    "artistic"; "charts"; "print" ].

Definition handle_list_tools : list Tool :=
  [ {| name := "view";
       description := "View a screenshot of the Adobe Illustrator window";
       properties := []; required := [] |};
    {| name := "run";
       description := "Run ExtendScript code in Illustrator";
       properties :=
         [ {| prop_name := "code"; prop_type := "string";
              prop_description := "ExtendScript code to execute.";
              prop_enum := [] |} ];
       required := [ "code" ] |};
    {| name := "get_prompt_suggestions";
       description :=
         "Get categorized prompt suggestions for creating content in Illustrator";
       properties :=
         [ {| prop_name := "category"; prop_type := "string";
              prop_description :=
                "Optional: Filter by category (e.g., 'logos', 'illustrations', 'icons')";
              prop_enum := category_enum |} ];
       required := [] |};
    {| name := "get_system_prompt";
       description :=
         "Get the system prompt template for better AI guidance when working with Illustrator";
       properties := []; required := [] |};
    {| name := "get_prompting_tips";
       description :=
         "Get tips for creating better prompts when working with Illustrator";
       properties := []; required := [] |};
    {| name := "get_advanced_template";
       description := "Get an advanced prompt template for complex design tasks";
       properties :=
         [ {| prop_name := "template_type"; prop_type := "string";
              prop_description := "Type of template to get";
              prop_enum := [ "logo_design"; "illustration"; "infographic"; "icon_set" ] |};
           {| prop_name := "parameters"; prop_type := "object";
              prop_description :=
                "Parameters to fill in the template (varies by template type)";
              prop_enum := [] |} ];
       required := [ "template_type" ] |};
    {| name := "help";
       description :=
         "Display comprehensive help information for using the Illustrator MCP server";
       properties := []; required := [] |} ].

(** The names the registry advertises. *)
Definition tool_names : list string := map name handle_list_tools.

Definition recognized (tool : string) : bool :=
  existsb (String.eqb tool) tool_names.

(** ** String literals of the dispatcher *)

Definition win32_unavailable_text : string :=
  "Win32 COM not available. Please install pywin32 and restart the server.".

(** The literals below hold characters outside ASCII; they are given by the
    UTF-8 bytes of the source file. *)
Definition palette_mark : string :=
  PyStr.utf8 [239; 163; 191; 195; 188; 195; 169; 194; 174].
Definition bullet : string :=
  PyStr.utf8 [226; 128; 154; 195; 132; 194; 162].

Definition category_map : dict string :=
  [ ("basic_shapes", palette_mark +:+ " Basic Shapes & Geometry");
    ("typography",
      PyStr.utf8 [239; 163; 191; 195; 188; 195; 172; 195; 185]
        +:+ " Typography & Text");
    ("logos",
      PyStr.utf8 [239; 163; 191; 195; 188; 195; 168; 194; 162]
        +:+ " Logos & Branding");
    ("illustrations",
      PyStr.utf8 [239; 163; 191; 195; 188; 195; 165; 195; 156]
        +:+ " Illustrations & Scenes");
    ("icons",
      PyStr.utf8 [239; 163; 191; 195; 188; 195; 169; 226; 137; 160]
        +:+ " Icons & UI Elements");
    ("artistic", palette_mark +:+ " Artistic & Creative");
    ("charts",
      PyStr.utf8 [239; 163; 191; 195; 188; 195; 172; 195; 164]
        +:+ " Charts & Infographics");
    ("print",
      PyStr.utf8 [239; 163; 191; 195; 188; 195; 168; 226; 136; 145; 195; 148;
                  226; 136; 143; 195; 168]
        +:+ " Print & Layout") ].

Definition suggestions_header : string :=
  "# " +:+ palette_mark +:+ " Illustrator Prompt Suggestions" +:+ PyStr.nl +:+ PyStr.nl.

Definition tips_header : string :=
  "# " +:+ PyStr.utf8 [239; 163; 191; 195; 188; 195; 173; 194; 176]
       +:+ " Prompting Tips for Adobe Illustrator" +:+ PyStr.nl +:+ PyStr.nl.

(** ** The dispatcher *)

Section Dispatcher.

Variable bridge : AutomationBridge.
Variable store : TemplateStore.
Variable python : PyRuntime.

Definition capture_illustrator : M (list content) :=
  if negb (WIN32_AVAILABLE bridge)
  then ret [TextContent win32_unavailable_text]
  else
    try_except
      (shell <- invoke (Call_Dispatch "WScript.Shell")
                       (Dispatch bridge "WScript.Shell") ;;
       invoke (Call_AppActivate "Adobe Illustrator")
              (AppActivate bridge "Adobe Illustrator") ;;;
       invoke (Call_sleep 1) (Return tt) ;;;
       screenshot <- invoke Call_ImageGrab_grab (ImageGrab_grab bridge) ;;
       buffer <- invoke Call_screenshot_save (screenshot_save bridge screenshot) ;;
       let screenshot_data := b64encode bridge buffer in
       ret [ImageContent "image/jpeg" screenshot_data])
      (fun e =>
         ret [TextContent ("Failed to capture screenshot: " +:+ exn_str e)]).

Definition run_illustrator_script (code : value) : M (list content) :=
  if negb (WIN32_AVAILABLE bridge)
  then ret [TextContent win32_unavailable_text]
  else
    try_except
      (jsx_file <- NamedTemporaryFile ;;
       data <- encode_utf8 code ;;
       file_write jsx_file data ;;;
       let jsx_file_path := jsx_file in
       illustrator <- invoke (Call_Dispatch "Illustrator.Application")
                             (Dispatch bridge "Illustrator.Application") ;;
       invoke_fs (Call_DoJavaScriptFile jsx_file_path)
                 (DoJavaScriptFile bridge jsx_file_path) ;;;
       os_unlink jsx_file_path ;;;
       ret [TextContent "Script executed successfully"])
      (fun e =>
         ret [TextContent ("Failed to execute script: " +:+ exn_str e)]).

(** [for item in items: result_text += f"<bullet> {item}\n"] *)
Definition add_bullets (result_text : string) (items : list string) : string :=
  fold_left
    (fun result_text item => result_text +:+ bullet +:+ " " +:+ item +:+ PyStr.nl)
    items result_text.

(** The loop over [suggestions.items()] of the full listing. *)
Definition add_categories (result_text : string) (suggestions : dict (list string))
  : string :=
  fold_left
    (fun result_text '(category, prompts) =>
       let result_text :=
         result_text +:+ "## " +:+ category +:+ PyStr.nl +:+ PyStr.nl in
       let result_text := add_bullets result_text prompts in
       result_text +:+ PyStr.nl)
    suggestions result_text.

(** [f"**{template_type.replace('_', ' ').title()} Template:**\n\n{template}"] *)
Definition template_heading (template_type template : string) : string :=
  "**" +:+ str_title python (PyStr.replace "_" " " template_type)
       +:+ " Template:**" +:+ PyStr.nl +:+ PyStr.nl +:+ template.

Definition error_text (e : exn) : M (list content) :=
  ret [TextContent ("Error: " +:+ exn_str e)].

Definition handle_call_tool (name : string) (arguments : option (gmap string value))
  : M (list content) :=
  if String.eqb name "view" then
    capture_illustrator

  else if String.eqb name "run" then
    (* if not arguments or "code" not in arguments *)
    match arguments with
    | Some args =>
        if negb (truthy_args arguments) then ret [TextContent "No code provided"]
        else
          match args !! "code" with
          | None => ret [TextContent "No code provided"]
          | Some code => run_illustrator_script code
          end
    | None => ret [TextContent "No code provided"]
    end

  else if String.eqb name "get_prompt_suggestions" then
    try_except
      (suggestions <- invoke Call_get_prompt_suggestions
                             (get_prompt_suggestions store) ;;
       let category := args_get arguments "category" in
       result_text <-
         (match category with
          | Some c =>
              if truthy c then
                key <- hashable c ;;
                match dict_get category_map key with
                | Some full_category =>
                    if negb (String.eqb full_category "")
                       && dict_in full_category suggestions
                    then
                      let result_text :=
                        "**" +:+ full_category +:+ "**" +:+ PyStr.nl +:+ PyStr.nl in
                      prompts <- dict_getitem python suggestions full_category ;;
                      ret (add_bullets result_text prompts)
                    else
                      ret ("Category '" +:+ key
                             +:+ "' not found. Available categories: "
                             +:+ list_repr python (dict_keys category_map))
                | None =>
                    ret ("Category '" +:+ key
                           +:+ "' not found. Available categories: "
                           +:+ list_repr python (dict_keys category_map))
                end
              else ret (add_categories suggestions_header suggestions)
          | None => ret (add_categories suggestions_header suggestions)
          end) ;;
       ret [TextContent result_text])
      error_text

  else if String.eqb name "get_system_prompt" then
    try_except
      (system_prompt <- invoke Call_get_system_prompt (get_system_prompt store) ;;
       ret [TextContent system_prompt])
      error_text

  else if String.eqb name "get_prompting_tips" then
    try_except
      (tips <- invoke Call_get_prompting_tips (get_prompting_tips store) ;;
       let result_text :=
         fold_left (fun result_text tip => result_text +:+ tip +:+ PyStr.nl)
                   tips tips_header in
       ret [TextContent result_text])
      error_text

  else if String.eqb name "get_advanced_template" then
    try_except
      (let template_type := args_get arguments "template_type" in
       let parameters :=
         if truthy_args arguments
         then default (VMap ∅) (default ∅ arguments !! "parameters")
         else VMap ∅ in
       match template_type with
       | Some t =>
           if negb (truthy t) then ret [TextContent "Template type is required"]
           else
             templates <- invoke Call_get_advanced_templates
                                 (get_advanced_templates store) ;;
             template_type <- hashable t ;;
             if dict_in template_type templates then
               if truthy parameters then
                 try_except_class KeyError
                   (formatted_template <-
                      invoke (Call_format_advanced_template template_type parameters)
                             (format_advanced_template store template_type parameters) ;;
                    ret [TextContent formatted_template])
                   (fun e =>
                      template <- dict_getitem python templates template_type ;;
                      let result_text :=
                        template_heading template_type template
                          +:+ PyStr.nl +:+ PyStr.nl in
                      let result_text :=
                        result_text +:+ "**Missing parameter:** " +:+ exn_str e
                                    +:+ PyStr.nl in
                      let result_text :=
                        result_text +:+
                        "Please provide the required parameters to fill in the template." in
                      ret [TextContent result_text])
               else
                 template <- dict_getitem python templates template_type ;;
                 ret [TextContent (template_heading template_type template)]
             else
               let available_templates := dict_keys templates in
               ret [TextContent
                      ("Template '" +:+ template_type
                         +:+ "' not found. Available templates: "
                         +:+ list_repr python available_templates)]
       | None => ret [TextContent "Template type is required"]
       end)
      error_text

  else if String.eqb name "help" then
    try_except
      (help_text <- invoke Call_display_help (display_help store) ;;
       ret [TextContent help_text])
      error_text

  else
    let error_msg := "Unknown tool: " +:+ name in
    raise (Exn ValueError error_msg).

End Dispatcher.

(** ** Properties of a dispatch, as predicates *)

(** A [view] that reaches the image: the bridge is available and each of
    its steps returns. *)
Definition capture_succeeds (bridge : AutomationBridge) : bool :=
  WIN32_AVAILABLE bridge
  && match Dispatch bridge "WScript.Shell", AppActivate bridge "Adobe Illustrator",
           ImageGrab_grab bridge with
     | Return _, Return _, Return screenshot =>
         match screenshot_save bridge screenshot with
         | Return _ => true
         | Raise _ => false
         end
     | _, _, _ => false
     end.

(** The events a computation added to the trace. *)
Definition new_events (w w' : world) (evs : list event) : Prop :=
  trace w' = trace w ++ evs.

(** A dispatch that ends in one content item: the outcome [out] of a
    computation started in [w] is the single item [item], and every
    exception a collaborator raised on the way is described by that item:
    the item is a text that holds the [str] of the exception. *)
Definition reports (w : world) (out : result (list content) * world)
    (item : content) : Prop :=
  fst out = Return [item] /\
  exists evs,
    new_events w (snd out) evs /\
    forall c e, In (c, Some e) evs ->
      exists text, item = TextContent text /\ PyStr.contains (exn_str e) text.

(** The text of one category of the full listing. *)
Definition category_section (entry : string * list string) : string :=
  "## " +:+ fst entry +:+ PyStr.nl +:+ PyStr.nl
    +:+ PyStr.concat_map (fun prompt => bullet +:+ " " +:+ prompt +:+ PyStr.nl)
          (snd entry)
    +:+ PyStr.nl.

(** A text that names every key of [category_map]. *)
Definition enumerates_categories (text : string) : Prop :=
  forall key, In key category_enum -> PyStr.contains (PyStr.repr key) text.

(** The statement of which parameter is missing. *)
Definition mentions_missing (python : PyRuntime) (key text : string) : Prop :=
  PyStr.contains ("**Missing parameter:** " +:+ str_repr python key) text.

(** ** Collaborators to run the dispatcher on *)

Module Demo.

Definition empty_world : world := World ∅ [].

(** A bridge on which every call returns. *)
Definition bridge_ok : AutomationBridge :=
  {| WIN32_AVAILABLE := true;
     Dispatch := fun _ => Return tt;
     AppActivate := fun _ => Return tt;
     ImageGrab_grab := Return "pixels";
     screenshot_save := fun screenshot => Return ("jpeg:" +:+ screenshot);
     b64encode := fun data => "b64:" +:+ data;
     DoJavaScriptFile := fun _ _ => Return tt |}.

(** A bridge on which Illustrator rejects every script. *)
Definition bridge_script_fails : AutomationBridge :=
  {| WIN32_AVAILABLE := true;
     Dispatch := fun _ => Return tt;
     AppActivate := fun _ => Return tt;
     ImageGrab_grab := Return "pixels";
     screenshot_save := fun screenshot => Return ("jpeg:" +:+ screenshot);
     b64encode := fun data => "b64:" +:+ data;
     DoJavaScriptFile :=
       fun _ _ => Raise (Exn OtherException "Illustrator: syntax error") |}.

(** A bridge on which Illustrator cannot be reached. *)
Definition bridge_unavailable_com : AutomationBridge :=
  {| WIN32_AVAILABLE := true;
     Dispatch := fun _ => Raise (Exn OtherException "Invalid class string");
     AppActivate := fun _ => Return tt;
     ImageGrab_grab := Return "pixels";
     screenshot_save := fun screenshot => Return ("jpeg:" +:+ screenshot);
     b64encode := fun data => "b64:" +:+ data;
     DoJavaScriptFile := fun _ _ => Return tt |}.

(** A host without win32com. *)
Definition bridge_unavailable : AutomationBridge :=
  {| WIN32_AVAILABLE := false;
     Dispatch := fun _ => Raise (Exn OtherException "no COM");
     AppActivate := fun _ => Raise (Exn OtherException "no COM");
     ImageGrab_grab := Raise (Exn OtherException "no display");
     screenshot_save := fun _ => Raise (Exn OtherException "no display");
     b64encode := fun data => data;
     DoJavaScriptFile := fun _ _ => Raise (Exn OtherException "no COM") |}.

(** A runtime to run the dispatcher on.  The strings of the runs below
    are in ASCII, where the runtime is not consulted. *)
Definition python : PyRuntime :=
  {| unicode_title := fun s => s;
     unicode_repr := fun s => "'" +:+ s +:+ "'" |}.

Definition templates : dict string :=
  [ ("logo_design", "Create a logo for {company_name} in {style} style");
    ("icon_set", "Create {count} icons") ].

(** Substitution of the [{name}] placeholders of a template; [field] is
    the name being read, if any. *)
Fixpoint substitute (parameters : gmap string value) (template : string)
    (field : option string) : result string :=
  match template with
  | EmptyString =>
      match field with
      | None => Return EmptyString
      | Some _ => Raise (Exn ValueError "expected '}' before end of string")
      end
  | String c rest =>
      match field with
      | None =>
          if Ascii.eqb c "{" then substitute parameters rest (Some EmptyString)
          else
            match substitute parameters rest None with
            | Return text => Return (String c text)
            | Raise e => Raise e
            end
      | Some key =>
          if Ascii.eqb c "}" then
            match parameters !! key with
            | Some (VStr v) =>
                match substitute parameters rest None with
                | Return text => Return (v +:+ text)
                | Raise e => Raise e
                end
            | Some (VMap _) => Raise (Exn TypeError "unsupported parameter")
            | None => Raise (key_error python key)
            end
          else substitute parameters rest (Some (key +:+ String c EmptyString))
      end
  end.

(** Modelled from the spec: the Template Store ([illustrator/prompt.py] is
    not part of the sources at hand).  A catalog of two templates, two
    categories of suggestions, and [format_template], which fails with a
    missing-parameter signal ([KeyError]) when a placeholder has no value
    and with an unknown-template signal ([ValueError]) when the id is not
    registered. *)
Definition store : TemplateStore :=
  {| get_system_prompt := Return "You are an Illustrator expert.";
     get_prompt_suggestions :=
       Return [ ("Logos", [ "Design a logo"; "Draw a monogram" ]);
                ("Icons", [ "Draw a home icon" ]) ];
     get_advanced_templates := Return templates;
     get_prompting_tips := Return [ "Be specific"; "Name the colors" ];
     display_help := Return "Tools: view, run";
     format_advanced_template :=
       fun template_type parameters =>
         match dict_get templates template_type, parameters with
         | None, _ =>
             Raise (Exn ValueError ("Unknown template type: " +:+ template_type))
         | Some _, VStr _ =>
             Raise (Exn TypeError "argument after ** must be a mapping, not str")
         | Some template, VMap m => substitute m template None
         end |}.

(** A Template Store that is out of order: every call raises. *)
Definition store_broken : TemplateStore :=
  {| get_system_prompt := Raise (Exn OtherException "store offline");
     get_prompt_suggestions := Raise (Exn OtherException "store offline");
     get_advanced_templates := Raise (Exn OtherException "store offline");
     get_prompting_tips := Raise (Exn OtherException "store offline");
     display_help := Raise (Exn OtherException "store offline");
     format_advanced_template :=
       fun _ _ => Raise (Exn OtherException "store offline") |}.

End Demo.

(** ** Which collaborator a call goes to *)

Definition is_bridge_call (c : call) : bool :=
  match c with
  | Call_Dispatch _ | Call_AppActivate _ | Call_sleep _ | Call_ImageGrab_grab
  | Call_screenshot_save | Call_DoJavaScriptFile _ => true
  | _ => false
  end.

Definition is_store_call (c : call) : bool := negb (is_bridge_call c).

(** The calls of a capture, in the order [capture_illustrator] makes them. *)
Definition view_calls : list call :=
  [ Call_Dispatch "WScript.Shell"; Call_AppActivate "Adobe Illustrator";
    Call_sleep 1; Call_ImageGrab_grab; Call_screenshot_save ].

(** The world after [run_illustrator_script] was invoked on each of
    [codes], one invocation after the other. *)
Definition run_scripts (bridge : AutomationBridge) (codes : list string)
    (w : world) : world :=
  fold_left (fun w code => snd (run_illustrator_script bridge (VStr code) w))
            codes w.

(** ** The client configuration hint: [_print_client_config_hint] *)

(** [s.replace(old, new)] for a one-character [old]. *)
Fixpoint str_replace_char (old : ascii) (new : string) (s : string) : string :=
  match s with
  | EmptyString => EmptyString
  | String c s' =>
      if Ascii.eqb c old then new +:+ str_replace_char old new s'
      else String c (str_replace_char old new s')
  end.

(** [path.replace("\\", "\\\\")]: one backslash becomes two. *)
Definition escape_backslashes (path : string) : string :=
  str_replace_char PyStr.backslash
    (String PyStr.backslash (String PyStr.backslash EmptyString)) path.

(** The text [_print_client_config_hint] writes to [sys.stderr], given
    [sys.executable] and [os.path.abspath(__file__)]: the hint, and the
    newline [print] adds. *)
Definition _print_client_config_hint (sys_executable server_file : string)
  : string :=
  let python_path := escape_backslashes sys_executable in
  let server_path := escape_backslashes server_file in
  let q := String PyStr.dquote EmptyString in
  let hint :=
    PyStr.nl
    +:+ "Add this MCP config in Codex/Cursor/Claude client settings:" +:+ PyStr.nl
    +:+ "{" +:+ PyStr.nl
    +:+ "  " +:+ q +:+ "mcpServers" +:+ q +:+ ": {" +:+ PyStr.nl
    +:+ "    " +:+ q +:+ "illustrator" +:+ q +:+ ": {" +:+ PyStr.nl
    +:+ "      " +:+ q +:+ "command" +:+ q +:+ ": " +:+ q +:+ python_path +:+ q
          +:+ "," +:+ PyStr.nl
    +:+ "      " +:+ q +:+ "args" +:+ q +:+ ": [" +:+ PyStr.nl
    +:+ "        " +:+ q +:+ server_path +:+ q +:+ PyStr.nl
    +:+ "      ]" +:+ PyStr.nl
    +:+ "    }" +:+ PyStr.nl
    +:+ "  }" +:+ PyStr.nl
    +:+ "}" +:+ PyStr.nl in
  hint +:+ PyStr.nl.

(** What a reader of the hint makes of the backslashes of a quoted path:
    two backslashes in a row stand for one. *)
Fixpoint collapse_backslashes (s : string) : string :=
  match s with
  | EmptyString => EmptyString
  | String a tail =>
      if Ascii.eqb a PyStr.backslash then
        match tail with
        | String b rest =>
            if Ascii.eqb b PyStr.backslash
            then String PyStr.backslash (collapse_backslashes rest)
            else String a (collapse_backslashes tail)
        | EmptyString => String a EmptyString
        end
      else String a (collapse_backslashes tail)
  end.

(** ** Proof automation *)

Create HintDb py_text.

(** Unfolds the computations down to functions on the world. *)
Ltac unfold_monad :=
  unfold error_text, dict_getitem, dict_in, hashable, encode_utf8,
    try_except_class, try_except, invoke_fs, invoke, bind, ret, raise in *.

(** Closes a [reports] goal once the outcome is a pair of values. *)
Ltac close_reports :=
  split; [reflexivity |];
  eexists; split;
  [ unfold new_events; cbn [snd trace]; rewrite <- ?app_assoc;
    first [ reflexivity | symmetry; apply app_nil_r ]
  | cbn [In app]; intros ? ? Hin;
    repeat (destruct Hin as [Hin | Hin]; [try discriminate |]);
    try contradiction;
    try (injection Hin as <- <-) ;
    try (eexists; split; [reflexivity |];
         eauto with py_text) ].

(** Case analysis on the outcomes a dispatch branches on. *)
Ltac split_cases :=
  repeat first
    [ progress cbn [fst snd fs trace raised negb andb orb truthy_opt] in *
    | progress simplify_eq
    | case_match ].

(** A branch of the dispatcher that only talks to the Template Store. *)
Ltac store_branch :=
  unfold_monad; split_cases;
  eexists; (split; [close_reports | reflexivity]).

(** Closes an effects goal once the final world is explicit. *)
Ltac close_effects :=
  eexists; split;
  [ unfold new_events; cbn [snd trace]; rewrite <- ?app_assoc;
    first [ reflexivity | symmetry; apply app_nil_r ]
  | split; [reflexivity | cbn [snd fs]; auto] ].

(** * Proofs *)

(** ** Strings *)

Lemma append_String (c : ascii) (s t : string) :
  String c s +:+ t = String c (s +:+ t).
Proof. reflexivity. Qed.

Lemma append_empty_l (s : string) : "" +:+ s = s.
Proof. reflexivity. Qed.

Lemma append_assoc (s1 s2 s3 : string) : (s1 +:+ s2) +:+ s3 = s1 +:+ s2 +:+ s3.
Proof.
  induction s1 as [|c s1 IH]; [reflexivity |].
  rewrite !append_String. f_equal. exact IH.
Qed.

Lemma append_empty_r (s : string) : s +:+ "" = s.
Proof.
  induction s as [|c s IH]; [reflexivity |].
  rewrite append_String. f_equal. exact IH.
Qed.

Lemma contains_refl (s : string) : PyStr.contains s s.
Proof. exists "", "". now rewrite append_empty_l, append_empty_r. Qed.

Lemma contains_append_l (sub s t : string) :
  PyStr.contains sub t -> PyStr.contains sub (s +:+ t).
Proof.
  intros (before & after & ->). exists (s +:+ before), after.
  now rewrite append_assoc.
Qed.

Lemma contains_append_r (sub s t : string) :
  PyStr.contains sub s -> PyStr.contains sub (s +:+ t).
Proof.
  intros (before & after & ->). exists before, (after +:+ t).
  now rewrite !append_assoc.
Qed.

#[local] Hint Resolve contains_refl contains_append_l contains_append_r : py_text.

Lemma starts_with_spec (p s : string) :
  PyStr.starts_with p s = true <-> exists rest, s = p +:+ rest.
Proof.
  revert s. induction p as [|a p IH]; intros s; simpl.
  - split; [intros _; now exists s | reflexivity].
  - destruct s as [|b s].
    + split; [discriminate | intros (rest & H); discriminate].
    + rewrite andb_true_iff, IH. split.
      * intros (Hab & rest & ->). apply Ascii.eqb_eq in Hab as ->. now exists rest.
      * intros (rest & H). rewrite append_String in H. injection H as -> ->.
        split; [apply Ascii.eqb_refl | now exists rest].
Qed.

Lemma containsb_spec (sub s : string) :
  PyStr.containsb sub s = true <-> PyStr.contains sub s.
Proof.
  induction s as [|c s IH].
  - simpl. rewrite orb_false_r, starts_with_spec. split.
    + intros (rest & H). exists "", rest. exact H.
    + intros (before & after & H). destruct before; [now exists after | discriminate].
  - cbn [PyStr.containsb]. rewrite orb_true_iff, IH, starts_with_spec. split.
    + intros [(rest & H) | (before & after & H)].
      * exists "", rest. exact H.
      * exists (String c before), after. rewrite append_String. now rewrite H.
    + intros (before & after & H). destruct before as [|b before].
      * left. now exists after.
      * right. rewrite append_String in H. injection H as _ H. now exists before, after.
Qed.

Lemma not_contains (sub s : string) :
  PyStr.containsb sub s = false -> ~ PyStr.contains sub s.
Proof. intros Hb Hc. apply containsb_spec in Hc. congruence. Qed.

(** ** One item per recognized tool *)

Lemma capture_illustrator_reports bridge w :
  exists item,
    reports w (capture_illustrator bridge w) item
    /\ is_image item = capture_succeeds bridge.
Proof.
  unfold capture_illustrator, capture_succeeds.
  destruct (WIN32_AVAILABLE bridge); cbn [negb andb].
  2:{ eexists. split; [unfold_monad; close_reports | reflexivity]. }
  unfold_monad. cbn.
  destruct (Dispatch bridge "WScript.Shell") as [[]|e1]; cbn.
  2:{ eexists. split; [close_reports | reflexivity]. }
  destruct (AppActivate bridge "Adobe Illustrator") as [[]|e2]; cbn.
  2:{ eexists. split; [close_reports | reflexivity]. }
  destruct (ImageGrab_grab bridge) as [screenshot|e3]; cbn.
  2:{ eexists. split; [close_reports | reflexivity]. }
  destruct (screenshot_save bridge screenshot) as [buffer|e4]; cbn.
  2:{ eexists. split; [close_reports | reflexivity]. }
  eexists. split; [close_reports | reflexivity].
Qed.

Lemma run_illustrator_script_reports bridge code w :
  exists text, reports w (run_illustrator_script bridge code w) (TextContent text).
Proof.
  unfold run_illustrator_script, NamedTemporaryFile, file_write, os_unlink.
  unfold_monad. split_cases; eexists; close_reports.
Qed.

Lemma recognized_unfold tool :
  recognized tool =
    (String.eqb tool "view" || (String.eqb tool "run"
     || (String.eqb tool "get_prompt_suggestions"
     || (String.eqb tool "get_system_prompt"
     || (String.eqb tool "get_prompting_tips"
     || (String.eqb tool "get_advanced_template"
     || (String.eqb tool "help" || false))))))).
Proof. reflexivity. Qed.

Lemma handle_call_tool_reports bridge store python tool arguments w :
  recognized tool = true ->
  exists item,
    reports w (handle_call_tool bridge store python tool arguments w) item
    /\ is_image item = (String.eqb tool "view" && capture_succeeds bridge).
Proof.
  rewrite recognized_unfold. unfold handle_call_tool. intros Hrec.
  destruct (String.eqb tool "view").
  { apply capture_illustrator_reports. }
  destruct (String.eqb tool "run").
  { destruct arguments as [args|]; [destruct (truthy_args (Some args)); cbn [negb];
                                    [destruct (args !! "code") as [code|] |] |].
    1: destruct (run_illustrator_script_reports bridge code w) as (text & H);
       exists (TextContent text); split; [exact H | reflexivity].
    all: eexists; split; [unfold_monad; close_reports | reflexivity]. }
  destruct (String.eqb tool "get_prompt_suggestions").
  { store_branch. }
  destruct (String.eqb tool "get_system_prompt").
  { store_branch. }
  destruct (String.eqb tool "get_prompting_tips").
  { store_branch. }
  destruct (String.eqb tool "get_advanced_template").
  { store_branch. }
  destruct (String.eqb tool "help").
  { store_branch. }
  discriminate.
Qed.

Lemma truthy_args_lookup (args : gmap string value) key v :
  args !! key = Some v -> truthy_args (Some args) = true.
Proof.
  intros Hlookup. unfold truthy_args. rewrite bool_decide_eq_false_2; [reflexivity |].
  intros Hsize. apply map_size_empty_iff in Hsize. subst args.
  rewrite lookup_empty in Hlookup. discriminate.
Qed.

(** ** The dispatch contract *)

(** C1: for every recognized tool name the dispatch returns, whatever the
    Automation Bridge and the Template Store do; an exception raised by a
    collaborator during the dispatch never reaches the caller, it is
    turned into a text item that holds the description of the exception. *)
Theorem collaborator_exceptions_become_text bridge store python tool arguments w :
  recognized tool = true ->
  exists items w',
    handle_call_tool bridge store python tool arguments w = (Return items, w')
    /\ exists evs,
         new_events w w' evs
         /\ forall c e, In (c, Some e) evs ->
              exists text,
                items = [TextContent text] /\ PyStr.contains (exn_str e) text.
Proof.
  intros Hrec.
  destruct (handle_call_tool_reports bridge store python tool arguments w Hrec)
    as (item & (Hout & evs & Hevs & Hdescr) & _).
  destruct (handle_call_tool bridge store python tool arguments w) as [r w'].
  cbn [fst snd] in *. subst r.
  exists [item], w'. split; [reflexivity |].
  exists evs. split; [exact Hevs |].
  intros c e Hin. destruct (Hdescr c e Hin) as (text & -> & Hsub).
  now exists text.
Qed.

Lemma collaborator_exceptions_become_text_witness :
  recognized "run" = true
  /\ exists items w',
       handle_call_tool Demo.bridge_script_fails Demo.store_broken Demo.python "run"
         (Some {[ "code" := VStr "alert(1)" ]}) Demo.empty_world
       = (Return items, w')
       /\ exists evs,
            new_events Demo.empty_world w' evs
            /\ forall c e, In (c, Some e) evs ->
                 exists text,
                   items = [TextContent text]
                   /\ PyStr.contains (exn_str e) text.
Proof.
  split; [reflexivity |].
  apply (collaborator_exceptions_become_text
           Demo.bridge_script_fails Demo.store_broken Demo.python "run"
           (Some {[ "code" := VStr "alert(1)" ]}) Demo.empty_world).
  reflexivity.
Defined.

(** C2: a tool name outside the registry makes the dispatch raise
    [ValueError("Unknown tool: <name>")] with nothing done, and a name of
    the registry makes it return a content sequence: the unknown name is
    the only case in which the dispatch raises. *)
Theorem unknown_tool_is_the_only_hard_error bridge store python tool arguments w :
  if recognized tool
  then exists items w',
         handle_call_tool bridge store python tool arguments w = (Return items, w')
  else handle_call_tool bridge store python tool arguments w
       = (Raise (Exn ValueError ("Unknown tool: " +:+ tool)), w).
Proof.
  destruct (recognized tool) eqn:Hrec.
  - destruct (handle_call_tool_reports bridge store python tool arguments w Hrec)
      as (item & (Hout & _) & _).
    destruct (handle_call_tool bridge store python tool arguments w) as [r w'].
    cbn [fst] in Hout. subst r. now exists [item], w'.
  - rewrite recognized_unfold in Hrec.
    repeat (apply orb_false_elim in Hrec as [? Hrec]).
    unfold handle_call_tool.
    repeat match goal with H : String.eqb _ _ = false |- _ => rewrite H; clear H end.
    reflexivity.
Qed.

(** C4: [run] with no argument mapping, or with a mapping without the key
    [code], returns exactly [Text("No code provided")] and leaves the world
    as it was: no call to the Automation Bridge is made. *)
Theorem run_without_code bridge store python arguments w :
  arguments = None
  \/ (exists args, arguments = Some args /\ args !! "code" = None) ->
  handle_call_tool bridge store python "run" arguments w
  = (Return [TextContent "No code provided"], w).
Proof.
  unfold handle_call_tool. cbn [String.eqb Ascii.eqb Bool.eqb].
  intros [-> | (args & -> & Hnocode)]; [reflexivity |].
  rewrite Hnocode.
  destruct (negb (truthy_args (Some args))); reflexivity.
Qed.

Lemma run_without_code_witness :
  handle_call_tool Demo.bridge_ok Demo.store Demo.python "run"
    (Some {[ "script" := VStr "alert(1)" ]}) Demo.empty_world
  = (Return [TextContent "No code provided"], Demo.empty_world).
Proof.
  apply (run_without_code Demo.bridge_ok Demo.store Demo.python
           (Some {[ "script" := VStr "alert(1)" ]}) Demo.empty_world).
  right. exists {[ "script" := VStr "alert(1)" ]}. split; reflexivity.
Defined.

(** C5: for every recognized tool name and every argument bag, absent or
    not, the dispatch returns a sequence that is not empty; it holds a text
    item unless it is the image of a [view] that succeeded. *)
Theorem recognized_tool_returns_items bridge store python tool arguments w :
  recognized tool = true ->
  exists items w',
    handle_call_tool bridge store python tool arguments w = (Return items, w')
    /\ items <> []
    /\ (existsb is_text items = true
        \/ (tool = "view" /\ capture_succeeds bridge = true)).
Proof.
  intros Hrec.
  destruct (handle_call_tool_reports bridge store python tool arguments w Hrec)
    as (item & (Hout & _) & Himage).
  destruct (handle_call_tool bridge store python tool arguments w) as [r w'].
  cbn [fst] in Hout. subst r.
  exists [item], w'. split; [reflexivity |]. split; [discriminate |].
  destruct item as [text | mime data]; [left; reflexivity | right].
  cbn in Himage. symmetry in Himage. apply andb_true_iff in Himage as [Hview Hok].
  apply String.eqb_eq in Hview. now split.
Qed.

Lemma recognized_tool_returns_items_witness :
  exists items w',
    handle_call_tool Demo.bridge_ok Demo.store_broken Demo.python "help" None Demo.empty_world
    = (Return items, w')
    /\ items <> []
    /\ (existsb is_text items = true
        \/ ("help" = "view" /\ capture_succeeds Demo.bridge_ok = true)).
Proof.
  apply (recognized_tool_returns_items
           Demo.bridge_ok Demo.store_broken Demo.python "help" None Demo.empty_world).
  reflexivity.
Defined.

(** C9: when the automation subsystem is not available, [view] and [run]
    with a [code] argument return the same fixed text and leave the world
    as it was: no file is written and no call to the bridge is made. *)
Theorem unavailable_bridge_degrades_uniformly bridge store python arguments args code w :
  WIN32_AVAILABLE bridge = false ->
  args !! "code" = Some code ->
  handle_call_tool bridge store python "view" arguments w
  = (Return [TextContent win32_unavailable_text], w)
  /\ handle_call_tool bridge store python "run" (Some args) w
     = (Return [TextContent win32_unavailable_text], w).
Proof.
  intros Hunavailable Hcode. unfold handle_call_tool.
  cbn [String.eqb Ascii.eqb Bool.eqb].
  rewrite (truthy_args_lookup args "code" code Hcode), Hcode. cbn [negb].
  unfold capture_illustrator, run_illustrator_script.
  rewrite Hunavailable. split; reflexivity.
Qed.

Lemma unavailable_bridge_degrades_uniformly_witness :
  handle_call_tool Demo.bridge_unavailable Demo.store Demo.python "view" None Demo.empty_world
  = (Return [TextContent win32_unavailable_text], Demo.empty_world)
  /\ handle_call_tool Demo.bridge_unavailable Demo.store Demo.python "run"
       (Some {[ "code" := VStr "alert(1)" ]}) Demo.empty_world
     = (Return [TextContent win32_unavailable_text], Demo.empty_world).
Proof.
  apply (unavailable_bridge_degrades_uniformly
           Demo.bridge_unavailable Demo.store Demo.python None
           {[ "code" := VStr "alert(1)" ]} (VStr "alert(1)") Demo.empty_world);
    reflexivity.
Defined.

(** C10: for every recognized tool name and every argument bag the
    dispatch returns exactly one content item; the item is an image when
    the tool is [view] and the capture succeeded, and a text in every
    other case. *)
Theorem one_item_image_only_for_view bridge store python tool arguments w :
  recognized tool = true ->
  exists item w',
    handle_call_tool bridge store python tool arguments w = (Return [item], w')
    /\ match item with
       | ImageContent _ _ => tool = "view" /\ capture_succeeds bridge = true
       | TextContent _ => tool <> "view" \/ capture_succeeds bridge = false
       end.
Proof.
  intros Hrec.
  destruct (handle_call_tool_reports bridge store python tool arguments w Hrec)
    as (item & (Hout & _) & Himage).
  destruct (handle_call_tool bridge store python tool arguments w) as [r w'].
  cbn [fst] in Hout. subst r.
  exists item, w'. split; [reflexivity |].
  destruct item as [text | mime data]; cbn in Himage; symmetry in Himage.
  - apply andb_false_iff in Himage as [Hview | Hfail]; [left | now right].
    now apply String.eqb_neq.
  - apply andb_true_iff in Himage as [Hview Hok].
    apply String.eqb_eq in Hview. now split.
Qed.

Lemma one_item_image_only_for_view_witness :
  exists item w',
    handle_call_tool Demo.bridge_ok Demo.store Demo.python "view" None Demo.empty_world
    = (Return [item], w')
    /\ match item with
       | ImageContent _ _ => "view" = "view" /\ capture_succeeds Demo.bridge_ok = true
       | TextContent _ => "view" <> "view" \/ capture_succeeds Demo.bridge_ok = false
       end.
Proof.
  apply (one_item_image_only_for_view
           Demo.bridge_ok Demo.store Demo.python "view" None Demo.empty_world).
  reflexivity.
Defined.

(** ** The temporary script of [run] *)

Lemma fresh_path_unused (files : gmap path string) :
  files !! fresh (dom files) = None.
Proof. apply not_elem_of_dom, is_fresh. Qed.

(** The file [run] hands to Illustrator: the new file, holding the code. *)
Lemma script_file_written (files : gmap path string) (code : string) :
  let jsx_file := fresh (dom files) in
  <[jsx_file := default "" (<[jsx_file := ""]> files !! jsx_file) +:+ code]>
    (<[jsx_file := ""]> files)
  = <[jsx_file := code]> files.
Proof.
  cbn zeta. rewrite lookup_insert_eq. cbn [from_option id].
  rewrite append_empty_l. apply insert_insert_eq.
Qed.

(** When Illustrator runs the script, the file is removed again: the
    temporary directory is as it was before the invocation. *)
Lemma run_success_removes_script bridge code w :
  WIN32_AVAILABLE bridge = true ->
  Dispatch bridge "Illustrator.Application" = Return tt ->
  DoJavaScriptFile bridge (fresh (dom (fs w)))
    (<[fresh (dom (fs w)) := code]> (fs w)) = Return tt ->
  run_illustrator_script bridge (VStr code) w
  = (Return [TextContent "Script executed successfully"],
     World (fs w)
           (trace w ++ [(Call_Dispatch "Illustrator.Application", None);
                        (Call_DoJavaScriptFile (fresh (dom (fs w))), None)])).
Proof.
  intros Havailable Hdispatch Hscript.
  unfold run_illustrator_script, NamedTemporaryFile, file_write, os_unlink.
  rewrite Havailable. unfold_monad. cbn [negb fs trace].
  rewrite script_file_written, Hdispatch. cbn [fs trace raised].
  rewrite Hscript. cbn [fs trace raised].
  rewrite lookup_insert_eq, delete_insert_eq, <- app_assoc.
  rewrite delete_id by apply fresh_path_unused.
  reflexivity.
Qed.

(** When Illustrator rejects the script, the handler returns without
    [os.unlink]: the file stays in the temporary directory. *)
Lemma run_failure_leaves_script bridge code e w :
  WIN32_AVAILABLE bridge = true ->
  Dispatch bridge "Illustrator.Application" = Return tt ->
  DoJavaScriptFile bridge (fresh (dom (fs w)))
    (<[fresh (dom (fs w)) := code]> (fs w)) = Raise e ->
  run_illustrator_script bridge (VStr code) w
  = (Return [TextContent ("Failed to execute script: " +:+ exn_str e)],
     World (<[fresh (dom (fs w)) := code]> (fs w))
           (trace w ++ [(Call_Dispatch "Illustrator.Application", None);
                        (Call_DoJavaScriptFile (fresh (dom (fs w))), Some e)])).
Proof.
  intros Havailable Hdispatch Hscript.
  unfold run_illustrator_script, NamedTemporaryFile, file_write, os_unlink.
  rewrite Havailable. unfold_monad. cbn [negb fs trace].
  rewrite script_file_written, Hdispatch. cbn [fs trace raised].
  rewrite Hscript. cbn [fs trace raised].
  rewrite <- app_assoc. reflexivity.
Qed.

(** C3: a [run] whose script Illustrator rejects.  The invocation reaches
    the Automation Bridge and returns the failure text, and the temporary
    script it created is still in the temporary directory: the cleanup is
    missed on the failure path. *)
Theorem run_leaves_script_when_execution_fails :
  exists w',
    handle_call_tool Demo.bridge_script_fails Demo.store Demo.python "run"
      (Some {[ "code" := VStr "alert(1)" ]}) Demo.empty_world
    = (Return [TextContent "Failed to execute script: Illustrator: syntax error"], w')
    /\ trace w'
       = [ (Call_Dispatch "Illustrator.Application", None);
           (Call_DoJavaScriptFile 1%positive,
            Some (Exn OtherException "Illustrator: syntax error")) ]
    /\ fs Demo.empty_world = ∅
    /\ fs w' !! 1%positive = Some "alert(1)".
Proof.
  eexists. split; [vm_compute; reflexivity |].
  repeat split; reflexivity.
Qed.

(** ** Texts built by the template tools *)

Lemma add_bullets_concat (result_text : string) (items : list string) :
  add_bullets result_text items
  = result_text
      +:+ PyStr.concat_map (fun item => bullet +:+ " " +:+ item +:+ PyStr.nl) items.
Proof.
  unfold add_bullets. revert result_text.
  induction items as [|item items IH]; intros result_text; cbn [fold_left PyStr.concat_map].
  - now rewrite append_empty_r.
  - rewrite IH. now rewrite !append_assoc.
Qed.

Lemma add_categories_concat (result_text : string) (suggestions : dict (list string)) :
  add_categories result_text suggestions
  = result_text +:+ PyStr.concat_map category_section suggestions.
Proof.
  unfold add_categories. revert result_text.
  induction suggestions as [|[category prompts] suggestions IH]; intros result_text;
    cbn [fold_left PyStr.concat_map].
  - now rewrite append_empty_r.
  - rewrite IH, add_bullets_concat. unfold category_section. cbn [fst snd].
    now rewrite !append_assoc.
Qed.

Lemma join_contains (sep x : string) (l : list string) :
  In x l -> PyStr.contains x (PyStr.join sep l).
Proof.
  induction l as [|y l IH]; [contradiction |].
  intros [-> | Hin].
  - destruct l; [apply contains_refl |].
    cbn [PyStr.join]. apply contains_append_r, contains_refl.
  - destruct l as [|z l]; [contradiction |].
    change (PyStr.join sep (y :: z :: l)) with (y +:+ sep +:+ PyStr.join sep (z :: l)).
    now apply contains_append_l, contains_append_l, IH.
Qed.

Lemma repr_list_contains (x : string) (l : list string) :
  In x l -> PyStr.contains (PyStr.repr x) (PyStr.repr_list l).
Proof.
  intros Hin. unfold PyStr.repr_list.
  apply contains_append_l, contains_append_r, join_contains.
  now apply in_map.
Qed.

Lemma category_keys : dict_keys category_map = category_enum.
Proof. reflexivity. Qed.

Lemma category_map_miss (key : string) :
  ~ In key category_enum -> dict_get category_map key = None.
Proof.
  intros Hnotin. unfold category_map. cbn [dict_get].
  repeat match goal with
  | |- context [String.eqb key ?lit] =>
      destruct (String.eqb_spec key lit) as [-> | _];
      [ exfalso; apply Hnotin; cbn; tauto |]
  end.
  reflexivity.
Qed.

Lemma args_get_lookup (args : gmap string value) (key : string) (v : value) :
  args !! key = Some v -> args_get (Some args) key = Some v.
Proof.
  intros Hlookup. unfold args_get.
  now rewrite (truthy_args_lookup args key v Hlookup).
Qed.

Lemma args_get_absent (arguments : option (gmap string value)) (key : string) :
  arguments = None \/ (exists args, arguments = Some args /\ args !! key = None) ->
  args_get arguments key = None.
Proof.
  intros [-> | (args & -> & Hnone)]; [reflexivity |].
  unfold args_get. now destruct (truthy_args (Some args)).
Qed.

Lemma truthy_VStr (s : string) : s <> "" -> truthy (VStr s) = true.
Proof. intros Hne. cbn. now apply negb_true_iff, String.eqb_neq. Qed.

(** ** [get_advanced_template] *)

Lemma list_repr_contains python (x : string) (l : list string) :
  In x l -> PyStr.contains (str_repr python x) (list_repr python l).
Proof.
  intros Hin. unfold list_repr.
  apply contains_append_l, contains_append_r, join_contains.
  now apply (in_map (str_repr python)).
Qed.

Lemma category_listing python :
  list_repr python (dict_keys category_map) = PyStr.repr_list category_enum.
Proof. reflexivity. Qed.

Lemma args_get_falsy (arguments : option (gmap string value)) (key : string) :
  arguments = None
  \/ (exists args, arguments = Some args
        /\ (args !! key = None
            \/ exists v, args !! key = Some v /\ truthy v = false)) ->
  truthy_opt (args_get arguments key) = false.
Proof.
  intros [-> | (args & -> & [Hnone | (v & Hv & Hfalsy)])]; [reflexivity | |].
  - rewrite (args_get_absent (Some args) key); [reflexivity |]. right. eauto.
  - now rewrite (args_get_lookup args key v Hv).
Qed.

(** C6, as the code has it, for a known template id that is not empty.
    With a parameters value that is not empty, for which the store's
    formatting signals the missing key [key], the dispatch returns one
    text item that holds the raw template and the statement that [key] is
    missing.  With a parameters value that is empty, the dispatch answers
    as if there were no parameters: the heading and the raw template,
    nothing after it, and the store's formatting is not called. *)
Theorem missing_parameter_keeps_raw_template
    bridge store python (args : gmap string value) t templates template w :
  args !! "template_type" = Some (VStr t) ->
  t <> "" ->
  get_advanced_templates store = Return templates ->
  dict_get templates t = Some template ->
  (forall parameters key,
     args !! "parameters" = Some parameters ->
     truthy parameters = true ->
     format_advanced_template store t parameters = Raise (key_error python key) ->
     exists text w',
       handle_call_tool bridge store python "get_advanced_template" (Some args) w
       = (Return [TextContent text], w')
       /\ PyStr.contains template text
       /\ mentions_missing python key text)
  /\ (forall parameters,
        args !! "parameters" = Some parameters ->
        truthy parameters = false ->
        (exists heading,
           handle_call_tool bridge store python "get_advanced_template" (Some args) w
           = (Return [TextContent (heading +:+ template)],
              World (fs w) (trace w ++ [(Call_get_advanced_templates, None)])))
        /\ handle_call_tool bridge store python "get_advanced_template" (Some args) w
           = handle_call_tool bridge store python "get_advanced_template"
               (Some (delete "parameters" args)) w).
Proof.
  intros Htype Hnonempty Hcatalog Hknown. split.
  - intros parameters key Hparams Htruthy Hformat.
    unfold handle_call_tool. cbn [String.eqb Ascii.eqb Bool.eqb].
    rewrite (args_get_lookup args _ _ Htype), (truthy_args_lookup args _ _ Htype).
    cbn [from_option id]. rewrite Hparams. cbn [from_option id].
    rewrite (truthy_VStr t Hnonempty), Htruthy. cbn [negb].
    unfold_monad. rewrite Hcatalog. cbn [fst snd fs trace raised].
    rewrite Hknown, Hformat. cbn [raised exn_cls key_error exn_class_eqb exn_str].
    eexists. eexists. split; [reflexivity |]. split.
    + unfold template_heading. rewrite !append_assoc.
      do 5 apply contains_append_l. apply contains_append_r, contains_refl.
    + unfold mentions_missing. rewrite !append_assoc.
      apply contains_append_l.
      do 2 apply contains_append_l.
      rewrite <- (append_assoc "**Missing parameter:** ").
      apply contains_append_r, contains_refl.
  - intros parameters Hparams Hfalsy.
    assert (Htype' : delete "parameters" args !! "template_type" = Some (VStr t))
      by (rewrite lookup_delete_ne; [exact Htype | discriminate]).
    unfold handle_call_tool. cbn [String.eqb Ascii.eqb Bool.eqb].
    rewrite (args_get_lookup args _ _ Htype), (truthy_args_lookup args _ _ Htype).
    rewrite (args_get_lookup _ _ _ Htype'), (truthy_args_lookup _ _ _ Htype').
    cbn [from_option id]. rewrite Hparams, lookup_delete_eq. cbn [from_option id].
    rewrite (truthy_VStr t Hnonempty), Hfalsy. cbn [negb truthy].
    rewrite map_size_empty. cbn [negb].
    unfold_monad. rewrite Hcatalog. cbn [fst snd fs trace raised].
    rewrite Hknown. split; [| reflexivity].
    unfold template_heading. eexists. rewrite <- !append_assoc. reflexivity.
Qed.

Lemma missing_parameter_keeps_raw_template_witness :
  (exists text w',
     handle_call_tool Demo.bridge_ok Demo.store Demo.python "get_advanced_template"
       (Some {[ "template_type" := VStr "logo_design";
                "parameters" := VMap {[ "style" := VStr "flat" ]} ]})
       Demo.empty_world
     = (Return [TextContent text], w')
     /\ PyStr.contains "Create a logo for {company_name} in {style} style" text
     /\ mentions_missing Demo.python "company_name" text)
  /\ (exists heading,
        handle_call_tool Demo.bridge_ok Demo.store Demo.python "get_advanced_template"
          (Some {[ "template_type" := VStr "logo_design"; "parameters" := VMap ∅ ]})
          Demo.empty_world
        = (Return [TextContent
                     (heading +:+ "Create a logo for {company_name} in {style} style")],
           World ∅ [(Call_get_advanced_templates, None)])).
Proof.
  split.
  - destruct (missing_parameter_keeps_raw_template
                Demo.bridge_ok Demo.store Demo.python
                {[ "template_type" := VStr "logo_design";
                   "parameters" := VMap {[ "style" := VStr "flat" ]} ]}
                "logo_design" Demo.templates
                "Create a logo for {company_name} in {style} style"
                Demo.empty_world)
      as [Hmissing _];
      [ reflexivity | discriminate | reflexivity | reflexivity |].
    apply (Hmissing (VMap {[ "style" := VStr "flat" ]}) "company_name");
      reflexivity.
  - destruct (missing_parameter_keeps_raw_template
                Demo.bridge_ok Demo.store Demo.python
                {[ "template_type" := VStr "logo_design"; "parameters" := VMap ∅ ]}
                "logo_design" Demo.templates
                "Create a logo for {company_name} in {style} style"
                Demo.empty_world)
      as [_ Hempty];
      [ reflexivity | discriminate | reflexivity | reflexivity |].
    apply (Hempty (VMap ∅)); reflexivity.
Defined.

(** C6 as stated fails on an empty parameters mapping: it omits the key
    [company_name], which the store's formatting would signal, yet the
    dispatch returns the raw template alone, with no statement of what is
    missing. *)
Lemma empty_parameters_get_no_missing_statement :
  dict_get Demo.templates "logo_design"
  = Some "Create a logo for {company_name} in {style} style"
  /\ format_advanced_template Demo.store "logo_design" (VMap ∅)
     = Raise (key_error Demo.python "company_name")
  /\ ~ exists text w',
         handle_call_tool Demo.bridge_ok Demo.store Demo.python "get_advanced_template"
           (Some {[ "template_type" := VStr "logo_design";
                    "parameters" := VMap ∅ ]})
           Demo.empty_world
         = (Return [TextContent text], w')
         /\ PyStr.contains "Create a logo for {company_name} in {style} style" text
         /\ mentions_missing Demo.python "company_name" text.
Proof.
  split; [reflexivity |]. split; [reflexivity |].
  intros (text & w' & Hout & _ & Hmention).
  vm_compute in Hout. injection Hout as <- _.
  revert Hmention. apply not_contains. vm_compute. reflexivity.
Qed.

(** C7, as the code has it.  Without a [template_type] (no argument
    mapping, or no such key) the dispatch returns the text
    "Template type is required" and leaves the world as it was: the
    Template Store is not queried.  A [template_type] that is empty (the
    empty string, an empty mapping) is answered in the same way.  With a
    [template_type] that is a string, not empty, and not an id of the
    catalog the store returns, the dispatch queries the catalog once and
    returns one text item listing the ids of that catalog, as Python
    prints the list of them, in the catalog's order. *)
Theorem template_type_absent_or_unknown bridge store python arguments w :
  (arguments = None
   \/ (exists args, arguments = Some args /\ args !! "template_type" = None) ->
   handle_call_tool bridge store python "get_advanced_template" arguments w
   = (Return [TextContent "Template type is required"], w))
  /\ (forall args v,
        arguments = Some args ->
        args !! "template_type" = Some v ->
        truthy v = false ->
        handle_call_tool bridge store python "get_advanced_template" arguments w
        = (Return [TextContent "Template type is required"], w))
  /\ (forall args t templates,
        arguments = Some args ->
        args !! "template_type" = Some (VStr t) ->
        t <> "" ->
        get_advanced_templates store = Return templates ->
        dict_get templates t = None ->
        handle_call_tool bridge store python "get_advanced_template" arguments w
        = (Return [TextContent
                     ("Template '" +:+ t +:+ "' not found. Available templates: "
                        +:+ list_repr python (dict_keys templates))],
           World (fs w) (trace w ++ [(Call_get_advanced_templates, None)]))
        /\ list_repr python (dict_keys templates)
           = "[" +:+ PyStr.join ", " (map (str_repr python) (dict_keys templates))
                 +:+ "]"
        /\ forall id, In id (dict_keys templates) ->
             PyStr.contains (str_repr python id)
               ("Template '" +:+ t +:+ "' not found. Available templates: "
                  +:+ list_repr python (dict_keys templates))).
Proof.
  split; [| split].
  - intros Habsent. unfold handle_call_tool. cbn [String.eqb Ascii.eqb Bool.eqb].
    rewrite (args_get_absent arguments "template_type" Habsent). reflexivity.
  - intros args v -> Htype Hfalsy.
    unfold handle_call_tool. cbn [String.eqb Ascii.eqb Bool.eqb].
    rewrite (args_get_lookup args _ _ Htype), Hfalsy. reflexivity.
  - intros args t templates -> Htype Hnonempty Hcatalog Hunknown. split; [| split].
    + unfold handle_call_tool. cbn [String.eqb Ascii.eqb Bool.eqb].
      rewrite (args_get_lookup args _ _ Htype), (truthy_VStr t Hnonempty).
      cbn [negb]. unfold_monad. rewrite Hcatalog. cbn [fst snd fs trace raised].
      rewrite Hunknown. reflexivity.
    + reflexivity.
    + intros id Hin. do 3 apply contains_append_l. now apply list_repr_contains.
Qed.

Lemma template_type_absent_or_unknown_witness :
  handle_call_tool Demo.bridge_ok Demo.store Demo.python "get_advanced_template"
    (Some {[ "parameters" := VMap ∅ ]}) Demo.empty_world
  = (Return [TextContent "Template type is required"], Demo.empty_world)
  /\ handle_call_tool Demo.bridge_ok Demo.store Demo.python "get_advanced_template"
       (Some {[ "template_type" := VStr "" ]}) Demo.empty_world
     = (Return [TextContent "Template type is required"], Demo.empty_world)
  /\ handle_call_tool Demo.bridge_ok Demo.store Demo.python "get_advanced_template"
       (Some {[ "template_type" := VStr "poster" ]}) Demo.empty_world
     = (Return [TextContent
                  ("Template '" +:+ "poster" +:+ "' not found. Available templates: "
                     +:+ list_repr Demo.python (dict_keys Demo.templates))],
        World ∅ [(Call_get_advanced_templates, None)]).
Proof.
  split; [| split].
  - apply (template_type_absent_or_unknown Demo.bridge_ok Demo.store Demo.python
             (Some {[ "parameters" := VMap ∅ ]}) Demo.empty_world).
    right. exists {[ "parameters" := VMap ∅ ]}. split; reflexivity.
  - apply (proj1 (proj2 (template_type_absent_or_unknown
                           Demo.bridge_ok Demo.store Demo.python
                           (Some {[ "template_type" := VStr "" ]}) Demo.empty_world))
             {[ "template_type" := VStr "" ]} (VStr ""));
      reflexivity.
  - apply (proj2 (proj2 (template_type_absent_or_unknown
                           Demo.bridge_ok Demo.store Demo.python
                           (Some {[ "template_type" := VStr "poster" ]})
                           Demo.empty_world))
             {[ "template_type" := VStr "poster" ]} "poster" Demo.templates);
      [ reflexivity | reflexivity | discriminate | reflexivity | reflexivity ].
Defined.

(** C7 as stated fails on the empty string: it is not an id of the
    catalog, yet the dispatch answers "Template type is required" and
    lists no id. *)
Lemma empty_template_type_lists_no_ids :
  dict_get Demo.templates "" = None
  /\ ~ exists text w',
         handle_call_tool Demo.bridge_ok Demo.store Demo.python "get_advanced_template"
           (Some {[ "template_type" := VStr "" ]}) Demo.empty_world
         = (Return [TextContent text], w')
         /\ forall id, In id (dict_keys Demo.templates) ->
              PyStr.contains (PyStr.repr id) text.
Proof.
  split; [reflexivity |].
  intros (text & w' & Hout & Hlists).
  vm_compute in Hout. injection Hout as <- _.
  specialize (Hlists "logo_design" (or_introl eq_refl)).
  revert Hlists. apply not_contains. vm_compute. reflexivity.
Qed.

(** ** [get_prompt_suggestions] *)

(** C8, as the code has it, for a store whose listing call returns
    [suggestions].  With a [category] that is a string, not empty, and not
    in the recognized set, the dispatch returns one text item that
    enumerates the keys of the recognized set.  With no [category] (no
    argument mapping, or no such key) or an empty one (the empty string,
    an empty mapping) it returns one text item made of the header and one
    section per category of the store, in the store's order. *)
Theorem suggestions_unknown_or_all bridge store python arguments suggestions w :
  get_prompt_suggestions store = Return suggestions ->
  (forall args c,
     arguments = Some args ->
     args !! "category" = Some (VStr c) ->
     c <> "" ->
     ~ In c category_enum ->
     exists text,
       handle_call_tool bridge store python "get_prompt_suggestions" arguments w
       = (Return [TextContent text],
          World (fs w) (trace w ++ [(Call_get_prompt_suggestions, None)]))
       /\ text = "Category '" +:+ c +:+ "' not found. Available categories: "
                   +:+ PyStr.repr_list category_enum
       /\ enumerates_categories text)
  /\ (arguments = None
      \/ (exists args,
            arguments = Some args
            /\ (args !! "category" = None
                \/ exists v, args !! "category" = Some v /\ truthy v = false)) ->
      handle_call_tool bridge store python "get_prompt_suggestions" arguments w
      = (Return [TextContent
                   (suggestions_header
                      +:+ PyStr.concat_map category_section suggestions)],
         World (fs w) (trace w ++ [(Call_get_prompt_suggestions, None)]))).
Proof.
  intros Hlisting. split.
  - intros args c -> Hcategory Hnonempty Hunknown.
    eexists. split; [| split; [reflexivity |]].
    + unfold handle_call_tool. cbn [String.eqb Ascii.eqb Bool.eqb].
      unfold_monad. rewrite Hlisting. cbn [fst snd fs trace raised].
      rewrite (args_get_lookup args _ _ Hcategory), (truthy_VStr c Hnonempty).
      rewrite (category_map_miss c Hunknown), category_listing. reflexivity.
    + intros key Hin. do 3 apply contains_append_l. now apply repr_list_contains.
  - intros Hfalsy. apply args_get_falsy in Hfalsy.
    unfold handle_call_tool. cbn [String.eqb Ascii.eqb Bool.eqb].
    unfold_monad. rewrite Hlisting. cbn [fst snd fs trace raised].
    destruct (args_get arguments "category") as [v|]; cbn [truthy_opt] in Hfalsy;
      [rewrite Hfalsy |]; now rewrite add_categories_concat.
Qed.

Lemma suggestions_unknown_or_all_witness :
  (exists text,
     handle_call_tool Demo.bridge_ok Demo.store Demo.python "get_prompt_suggestions"
       (Some {[ "category" := VStr "posters" ]}) Demo.empty_world
     = (Return [TextContent text], World ∅ [(Call_get_prompt_suggestions, None)])
     /\ text = "Category 'posters' not found. Available categories: "
                 +:+ PyStr.repr_list category_enum
     /\ enumerates_categories text)
  /\ handle_call_tool Demo.bridge_ok Demo.store Demo.python "get_prompt_suggestions"
       (Some {[ "category" := VStr "" ]}) Demo.empty_world
     = (Return [TextContent
                  (suggestions_header
                     +:+ PyStr.concat_map category_section
                           [ ("Logos", [ "Design a logo"; "Draw a monogram" ]);
                             ("Icons", [ "Draw a home icon" ]) ])],
        World ∅ [(Call_get_prompt_suggestions, None)]).
Proof.
  pose proof (suggestions_unknown_or_all Demo.bridge_ok Demo.store Demo.python) as H.
  split.
  - apply (proj1 (H (Some {[ "category" := VStr "posters" ]}) _ Demo.empty_world eq_refl)
             {[ "category" := VStr "posters" ]} "posters");
      [ reflexivity | reflexivity | discriminate | ].
    cbn. intuition discriminate.
  - apply (proj2 (H (Some {[ "category" := VStr "" ]}) _ Demo.empty_world eq_refl)).
    right. exists {[ "category" := VStr "" ]}. split; [reflexivity |].
    right. exists (VStr ""). split; reflexivity.
Defined.

(** C8 as stated fails on the empty string: it is not in the recognized
    set, yet the dispatch returns the full listing, which enumerates no
    category key. *)
Lemma empty_category_gets_full_listing :
  ~ In "" category_enum
  /\ ~ exists text w',
         handle_call_tool Demo.bridge_ok Demo.store Demo.python "get_prompt_suggestions"
           (Some {[ "category" := VStr "" ]}) Demo.empty_world
         = (Return [TextContent text], w')
         /\ enumerates_categories text.
Proof.
  split; [cbn; intuition discriminate |].
  intros (text & w' & Hout & Henum).
  vm_compute in Hout. injection Hout as <- _.
  specialize (Henum "basic_shapes" (or_introl eq_refl)).
  revert Henum. apply not_contains. vm_compute. reflexivity.
Qed.

(** * Further properties of the dispatcher *)

(** ** [run]: the script file and the bridge *)

Lemma handle_call_tool_run bridge store python (args : gmap string value) code w :
  args !! "code" = Some code ->
  handle_call_tool bridge store python "run" (Some args) w
  = run_illustrator_script bridge code w.
Proof.
  intros Hcode. unfold handle_call_tool. cbn [String.eqb Ascii.eqb Bool.eqb].
  now rewrite (truthy_args_lookup args "code" code Hcode), Hcode.
Qed.

(** X1: a [run] whose script Illustrator executes returns
    "Script executed successfully", makes the two bridge calls in order and
    leaves the temporary directory exactly as it found it. *)
Theorem run_success_restores_files bridge store python (args : gmap string value) code w :
  args !! "code" = Some (VStr code) ->
  WIN32_AVAILABLE bridge = true ->
  Dispatch bridge "Illustrator.Application" = Return tt ->
  DoJavaScriptFile bridge (fresh (dom (fs w)))
    (<[fresh (dom (fs w)) := code]> (fs w)) = Return tt ->
  handle_call_tool bridge store python "run" (Some args) w
  = (Return [TextContent "Script executed successfully"],
     World (fs w)
           (trace w ++ [(Call_Dispatch "Illustrator.Application", None);
                        (Call_DoJavaScriptFile (fresh (dom (fs w))), None)])).
Proof.
  intros Hcode Havailable Hdispatch Hscript.
  rewrite (handle_call_tool_run _ _ _ _ _ _ Hcode).
  now apply run_success_removes_script.
Qed.

Lemma run_success_restores_files_witness :
  handle_call_tool Demo.bridge_ok Demo.store Demo.python "run"
    (Some {[ "code" := VStr "alert(1)" ]}) Demo.empty_world
  = (Return [TextContent "Script executed successfully"],
     World ∅ [(Call_Dispatch "Illustrator.Application", None);
              (Call_DoJavaScriptFile (fresh (dom (∅ : gmap path string))), None)]).
Proof.
  apply (run_success_restores_files Demo.bridge_ok Demo.store Demo.python
           {[ "code" := VStr "alert(1)" ]} "alert(1)" Demo.empty_world);
    reflexivity.
Defined.

(** X2: when Illustrator cannot be reached ([Dispatch] raises), [run]
    returns the failure text, never calls [DoJavaScriptFile], and the
    script file it wrote stays in the temporary directory. *)
Theorem run_unreachable_illustrator bridge store python (args : gmap string value) code e w :
  args !! "code" = Some (VStr code) ->
  WIN32_AVAILABLE bridge = true ->
  Dispatch bridge "Illustrator.Application" = Raise e ->
  handle_call_tool bridge store python "run" (Some args) w
  = (Return [TextContent ("Failed to execute script: " +:+ exn_str e)],
     World (<[fresh (dom (fs w)) := code]> (fs w))
           (trace w ++ [(Call_Dispatch "Illustrator.Application", Some e)])).
Proof.
  intros Hcode Havailable Hdispatch.
  rewrite (handle_call_tool_run _ _ _ _ _ _ Hcode).
  unfold run_illustrator_script, NamedTemporaryFile, file_write.
  rewrite Havailable. unfold_monad. cbn [negb fs trace].
  rewrite script_file_written, Hdispatch. reflexivity.
Qed.

Lemma run_unreachable_illustrator_witness :
  handle_call_tool Demo.bridge_unavailable_com Demo.store Demo.python "run"
    (Some {[ "code" := VStr "alert(1)" ]}) Demo.empty_world
  = (Return [TextContent "Failed to execute script: Invalid class string"],
     World (<[fresh (dom (∅ : gmap path string)) := "alert(1)"]> ∅)
           [(Call_Dispatch "Illustrator.Application",
             Some (Exn OtherException "Invalid class string"))]).
Proof.
  apply (run_unreachable_illustrator Demo.bridge_unavailable_com Demo.store Demo.python
           {[ "code" := VStr "alert(1)" ]} "alert(1)"
           (Exn OtherException "Invalid class string") Demo.empty_world);
    reflexivity.
Defined.

(** X3: when Illustrator rejects the script ([DoJavaScriptFile] raises),
    [run] returns the failure text with the description of the exception,
    and the script file, holding the code, stays in the temporary
    directory. *)
Theorem run_rejected_script bridge store python (args : gmap string value) code e w :
  args !! "code" = Some (VStr code) ->
  WIN32_AVAILABLE bridge = true ->
  Dispatch bridge "Illustrator.Application" = Return tt ->
  DoJavaScriptFile bridge (fresh (dom (fs w)))
    (<[fresh (dom (fs w)) := code]> (fs w)) = Raise e ->
  handle_call_tool bridge store python "run" (Some args) w
  = (Return [TextContent ("Failed to execute script: " +:+ exn_str e)],
     World (<[fresh (dom (fs w)) := code]> (fs w))
           (trace w ++ [(Call_Dispatch "Illustrator.Application", None);
                        (Call_DoJavaScriptFile (fresh (dom (fs w))), Some e)])).
Proof.
  intros Hcode Havailable Hdispatch Hscript.
  rewrite (handle_call_tool_run _ _ _ _ _ _ Hcode).
  now apply run_failure_leaves_script.
Qed.

Lemma run_rejected_script_witness :
  handle_call_tool Demo.bridge_script_fails Demo.store Demo.python "run"
    (Some {[ "code" := VStr "alert(1)" ]}) Demo.empty_world
  = (Return [TextContent "Failed to execute script: Illustrator: syntax error"],
     World (<[fresh (dom (∅ : gmap path string)) := "alert(1)"]> ∅)
           [(Call_Dispatch "Illustrator.Application", None);
            (Call_DoJavaScriptFile (fresh (dom (∅ : gmap path string))),
             Some (Exn OtherException "Illustrator: syntax error"))]).
Proof.
  apply (run_rejected_script Demo.bridge_script_fails Demo.store Demo.python
           {[ "code" := VStr "alert(1)" ]} "alert(1)"
           (Exn OtherException "Illustrator: syntax error") Demo.empty_world);
    reflexivity.
Defined.

(** X4: the [run] branch tests for the key [code], not for its truth
    value: every string [code] that has a UTF-8 encoding (the strings of
    the model), the empty one included, is written to a file and the
    bridge is called for it. *)
Theorem run_reaches_bridge_for_any_code bridge store python (args : gmap string value) code w :
  args !! "code" = Some (VStr code) ->
  WIN32_AVAILABLE bridge = true ->
  exists r w' rest,
    handle_call_tool bridge store python "run" (Some args) w = (r, w')
    /\ trace w'
       = trace w ++ (Call_Dispatch "Illustrator.Application",
                     raised (Dispatch bridge "Illustrator.Application")) :: rest
    /\ r <> Return [TextContent "No code provided"].
Proof.
  intros Hcode Havailable.
  rewrite (handle_call_tool_run _ _ _ _ _ _ Hcode).
  unfold run_illustrator_script, NamedTemporaryFile, file_write, os_unlink.
  rewrite Havailable. unfold_monad. cbn [negb fs trace].
  destruct (Dispatch bridge "Illustrator.Application") as [[]|e]; cbn [fs trace raised].
  - split_cases; do 3 eexists;
      (split; [reflexivity |]); cbn [trace];
      (split; [rewrite <- app_assoc; reflexivity | discriminate]).
  - do 3 eexists. split; [reflexivity |]. split; [reflexivity | discriminate].
Qed.

Lemma run_reaches_bridge_for_any_code_witness :
  exists r w' rest,
    handle_call_tool Demo.bridge_ok Demo.store Demo.python "run"
      (Some {[ "code" := VStr "" ]}) Demo.empty_world = (r, w')
    /\ trace w'
       = trace Demo.empty_world
           ++ (Call_Dispatch "Illustrator.Application",
               raised (Dispatch Demo.bridge_ok "Illustrator.Application")) :: rest
    /\ r <> Return [TextContent "No code provided"].
Proof.
  apply (run_reaches_bridge_for_any_code Demo.bridge_ok Demo.store Demo.python
           {[ "code" := VStr "" ]} "" Demo.empty_world);
    reflexivity.
Defined.

(** X5: a [code] that is a mapping cannot be encoded: [run] returns the
    failure text of the [AttributeError], makes no call to the bridge, and
    the file it had created, still empty, stays in the temporary
    directory. *)
Theorem run_code_not_a_string bridge store python (args : gmap string value) m w :
  args !! "code" = Some (VMap m) ->
  WIN32_AVAILABLE bridge = true ->
  handle_call_tool bridge store python "run" (Some args) w
  = (Return [TextContent
               "Failed to execute script: 'dict' object has no attribute 'encode'"],
     World (<[fresh (dom (fs w)) := ""]> (fs w)) (trace w)).
Proof.
  intros Hcode Havailable.
  rewrite (handle_call_tool_run _ _ _ _ _ _ Hcode).
  unfold run_illustrator_script, NamedTemporaryFile.
  rewrite Havailable. reflexivity.
Qed.

Lemma run_code_not_a_string_witness :
  handle_call_tool Demo.bridge_ok Demo.store Demo.python "run"
    (Some {[ "code" := VMap {[ "src" := VStr "alert(1)" ]} ]}) Demo.empty_world
  = (Return [TextContent
               "Failed to execute script: 'dict' object has no attribute 'encode'"],
     World (<[fresh (dom (∅ : gmap path string)) := ""]> ∅) []).
Proof.
  apply (run_code_not_a_string Demo.bridge_ok Demo.store Demo.python
           {[ "code" := VMap {[ "src" := VStr "alert(1)" ]} ]}
           {[ "src" := VStr "alert(1)" ]} Demo.empty_world);
    reflexivity.
Defined.

(** ** What a dispatch does to the world *)

Lemma run_illustrator_script_effects bridge code w :
  exists evs,
    new_events w (snd (run_illustrator_script bridge code w)) evs
    /\ forallb (fun ev => is_bridge_call (fst ev)) evs = true
    /\ (fs (snd (run_illustrator_script bridge code w)) = fs w
        \/ exists content,
             fs (snd (run_illustrator_script bridge code w))
             = <[fresh (dom (fs w)) := content]> (fs w)).
Proof.
  unfold run_illustrator_script, NamedTemporaryFile, file_write, os_unlink.
  destruct (WIN32_AVAILABLE bridge); cbn [negb]; [| unfold_monad; close_effects].
  destruct code as [code | m]; unfold_monad; cbn [fs trace];
    [| close_effects; right; eauto].
  rewrite script_file_written.
  destruct (Dispatch bridge "Illustrator.Application") as [[]|e1];
    cbn [fs trace raised]; [| close_effects; right; eauto].
  destruct (DoJavaScriptFile bridge _ _) as [[]|e2];
    cbn [fs trace raised]; [| close_effects; right; eauto].
  rewrite lookup_insert_eq. close_effects. left.
  apply delete_insert_id, fresh_path_unused.
Qed.

Lemma capture_illustrator_effects bridge w :
  exists evs,
    new_events w (snd (capture_illustrator bridge w)) evs
    /\ forallb (fun ev => is_bridge_call (fst ev)) evs = true
    /\ fs (snd (capture_illustrator bridge w)) = fs w.
Proof.
  unfold capture_illustrator. unfold_monad. split_cases; close_effects.
Qed.

Lemma handle_call_tool_effects bridge store python tool arguments w :
  recognized tool = true ->
  exists evs,
    new_events w (snd (handle_call_tool bridge store python tool arguments w)) evs
    /\ forallb
         (fun ev =>
            if String.eqb tool "view" || String.eqb tool "run"
            then is_bridge_call (fst ev) else is_store_call (fst ev)) evs
       = true
    /\ (fs (snd (handle_call_tool bridge store python tool arguments w)) = fs w
        \/ (tool = "run"
            /\ exists content,
                 fs (snd (handle_call_tool bridge store python tool arguments w))
                 = <[fresh (dom (fs w)) := content]> (fs w))).
Proof.
  rewrite recognized_unfold. intros Hrec.
  destruct (String.eqb_spec tool "view") as [-> | Hview].
  { destruct (capture_illustrator_effects bridge w) as (evs & ? & ? & ?).
    exists evs. auto. }
  destruct (String.eqb_spec tool "run") as [-> | Hrun].
  { unfold handle_call_tool. cbn [String.eqb Ascii.eqb Bool.eqb orb].
    destruct arguments as [args|]; [| unfold_monad; close_effects].
    destruct (negb (truthy_args (Some args))); [unfold_monad; close_effects |].
    destruct (args !! "code") as [code|]; [| unfold_monad; close_effects].
    destruct (run_illustrator_script_effects bridge code w)
      as (evs & ? & ? & [? | ?]); exists evs; auto. }
  apply String.eqb_neq in Hview, Hrun.
  unfold handle_call_tool. rewrite Hview, Hrun in *. cbn [orb] in *.
  repeat match goal with
  | |- context [if String.eqb tool ?lit then _ else _] =>
      destruct (String.eqb tool lit);
      [ unfold_monad; split_cases; close_effects |]
  end.
  discriminate.
Qed.

Lemma handle_call_tool_unknown bridge store python tool arguments w :
  recognized tool = false ->
  handle_call_tool bridge store python tool arguments w
  = (Raise (Exn ValueError ("Unknown tool: " +:+ tool)), w).
Proof.
  rewrite recognized_unfold. intros Hrec.
  repeat (apply orb_false_elim in Hrec as [? Hrec]).
  unfold handle_call_tool.
  repeat match goal with H : String.eqb _ _ = false |- _ => rewrite H; clear H end.
  reflexivity.
Qed.

(** X6: whatever the tool name, the arguments and the collaborators do, a
    dispatch never removes or rewrites a file that was in the temporary
    directory before it. *)
Theorem existing_files_survive bridge store python tool arguments w p content :
  fs w !! p = Some content ->
  fs (snd (handle_call_tool bridge store python tool arguments w)) !! p = Some content.
Proof.
  intros Hfile. destruct (recognized tool) eqn:Hrec.
  - destruct (handle_call_tool_effects bridge store python tool arguments w Hrec)
      as (evs & _ & _ & [-> | (_ & new_content & ->)]); [exact Hfile |].
    rewrite lookup_insert_ne; [exact Hfile |].
    intros Heq. rewrite <- Heq, fresh_path_unused in Hfile. discriminate.
  - now rewrite handle_call_tool_unknown.
Qed.

Lemma existing_files_survive_witness :
  fs (snd (handle_call_tool Demo.bridge_script_fails Demo.store Demo.python "run"
             (Some {[ "code" := VStr "alert(2)" ]})
             (World {[ 1%positive := "alert(1)" ]} [])))
    !! 1%positive
  = Some "alert(1)".
Proof.
  apply (existing_files_survive Demo.bridge_script_fails Demo.store Demo.python "run"
           (Some {[ "code" := VStr "alert(2)" ]})
           (World {[ 1%positive := "alert(1)" ]} []) 1%positive "alert(1)").
  reflexivity.
Defined.

(** X7: each tool talks to one collaborator only.  [view] and [run] make
    calls to the Automation Bridge and none to the Template Store; the five
    template tools make calls to the Template Store and none to the bridge.
    Every tool but [run] leaves the temporary directory as it was. *)
Theorem each_tool_uses_one_collaborator bridge store python tool arguments w :
  recognized tool = true ->
  exists r w' evs,
    handle_call_tool bridge store python tool arguments w = (r, w')
    /\ new_events w w' evs
    /\ (if String.eqb tool "view" || String.eqb tool "run"
        then forallb (fun ev => is_bridge_call (fst ev)) evs = true
        else forallb (fun ev => is_store_call (fst ev)) evs = true)
    /\ (tool <> "run" -> fs w' = fs w).
Proof.
  intros Hrec.
  destruct (handle_call_tool_effects bridge store python tool arguments w Hrec)
    as (evs & Hevs & Hcalls & Hfiles).
  destruct (handle_call_tool bridge store python tool arguments w) as [r w'].
  cbn [snd] in *. exists r, w', evs.
  split; [reflexivity |]. split; [exact Hevs |]. split.
  - destruct (String.eqb tool "view" || String.eqb tool "run"); exact Hcalls.
  - intros Hnotrun. destruct Hfiles as [Hsame | (Hrun & _)]; [exact Hsame | contradiction].
Qed.

Lemma each_tool_uses_one_collaborator_witness :
  exists r w' evs,
    handle_call_tool Demo.bridge_ok Demo.store Demo.python "get_advanced_template"
      (Some {[ "template_type" := VStr "icon_set";
               "parameters" := VMap {[ "count" := VStr "12" ]} ]})
      Demo.empty_world
    = (r, w')
    /\ new_events Demo.empty_world w' evs
    /\ (if String.eqb "get_advanced_template" "view"
           || String.eqb "get_advanced_template" "run"
        then forallb (fun ev => is_bridge_call (fst ev)) evs = true
        else forallb (fun ev => is_store_call (fst ev)) evs = true)
    /\ ("get_advanced_template" <> "run" -> fs w' = fs Demo.empty_world).
Proof.
  apply (each_tool_uses_one_collaborator Demo.bridge_ok Demo.store Demo.python
           "get_advanced_template"
           (Some {[ "template_type" := VStr "icon_set";
                    "parameters" := VMap {[ "count" := VStr "12" ]} ]})
           Demo.empty_world).
  reflexivity.
Defined.

(** ** Consecutive [run] invocations *)

Lemma run_failing_step bridge code w :
  WIN32_AVAILABLE bridge = true ->
  (forall p files,
     Dispatch bridge "Illustrator.Application" = Return tt ->
     exists e, DoJavaScriptFile bridge p files = Raise e) ->
  fs (snd (run_illustrator_script bridge (VStr code) w))
  = <[fresh (dom (fs w)) := code]> (fs w).
Proof.
  intros Havailable Hfails.
  destruct (Dispatch bridge "Illustrator.Application") as [[]|e] eqn:Hdispatch.
  - destruct (Hfails (fresh (dom (fs w))) (<[fresh (dom (fs w)) := code]> (fs w)) eq_refl)
      as (e & Hscript).
    now rewrite (run_failure_leaves_script bridge code e w Havailable Hdispatch Hscript).
  - unfold run_illustrator_script, NamedTemporaryFile, file_write.
    rewrite Havailable. unfold_monad. cbn [negb fs trace].
    rewrite script_file_written, Hdispatch. reflexivity.
Qed.

(** X8: on a host where no script execution succeeds, every [run] leaves
    one more file behind: after the invocations for [codes] the temporary
    directory holds all it held before and as many new files as there were
    invocations. *)
Theorem failing_runs_accumulate_files bridge codes w :
  WIN32_AVAILABLE bridge = true ->
  (forall p files,
     Dispatch bridge "Illustrator.Application" = Return tt ->
     exists e, DoJavaScriptFile bridge p files = Raise e) ->
  size (fs (run_scripts bridge codes w)) = size (fs w) + length codes
  /\ fs w ⊆ fs (run_scripts bridge codes w).
Proof.
  intros Havailable Hfails. unfold run_scripts. revert w.
  induction codes as [|code codes IH]; intros w; cbn [fold_left length].
  - split; [lia | reflexivity].
  - destruct (IH (snd (run_illustrator_script bridge (VStr code) w))) as [Hsize Hsub].
    rewrite (run_failing_step bridge code w Havailable Hfails) in Hsize, Hsub.
    rewrite map_size_insert_None in Hsize by apply fresh_path_unused.
    split; [lia |].
    etrans; [| exact Hsub]. apply insert_subseteq, fresh_path_unused.
Qed.

Lemma failing_runs_accumulate_files_witness :
  size (fs (run_scripts Demo.bridge_script_fails
              [ "alert(1)"; "alert(2)"; "alert(3)" ] Demo.empty_world))
  = size (fs Demo.empty_world) + length [ "alert(1)"; "alert(2)"; "alert(3)" ]
  /\ fs Demo.empty_world
     ⊆ fs (run_scripts Demo.bridge_script_fails
             [ "alert(1)"; "alert(2)"; "alert(3)" ] Demo.empty_world).
Proof.
  apply (failing_runs_accumulate_files Demo.bridge_script_fails
           [ "alert(1)"; "alert(2)"; "alert(3)" ] Demo.empty_world).
  - reflexivity.
  - intros p files _. eexists. reflexivity.
Defined.



(** ** [view]: the steps of a capture *)

(** X10: a capture makes its calls in one order (shell, activation, pause,
    grab, save) and stops at the first one that raises: the calls made are
    a prefix of that sequence, an exception is raised by the last call
    made only, and it is reported in the text "Failed to capture
    screenshot: ...".  No file is touched. *)
Theorem view_stops_at_first_failure bridge store python arguments w :
  exists r w' evs,
    handle_call_tool bridge store python "view" arguments w = (r, w')
    /\ new_events w w' evs
    /\ map fst evs `prefix_of` view_calls
    /\ fs w' = fs w
    /\ forall c e, In (c, Some e) evs ->
         (exists before, evs = before ++ [(c, Some e)])
         /\ r = Return [TextContent ("Failed to capture screenshot: " +:+ exn_str e)].
Proof.
  unfold handle_call_tool. cbn [String.eqb Ascii.eqb Bool.eqb].
  unfold capture_illustrator. unfold_monad. split_cases;
    do 3 eexists;
    (split; [reflexivity |]);
    (split; [unfold new_events; cbn [trace]; rewrite <- ?app_assoc;
             first [reflexivity | symmetry; apply app_nil_r] |]);
    (split; [eexists; reflexivity |]);
    (split; [reflexivity |]);
    cbn [In app]; intros ? ? Hin;
    repeat (destruct Hin as [Hin | Hin]; [try discriminate |]);
    try contradiction;
    injection Hin as <- <-;
    (split; [| reflexivity]);
    solve [ eexists []; reflexivity
          | eexists [_]; reflexivity
          | eexists [_; _]; reflexivity
          | eexists [_; _; _]; reflexivity
          | eexists [_; _; _; _]; reflexivity ].
Qed.

(** X11: when every step of the capture returns, [view] returns one image
    item of type "image/jpeg" whose data is the base64 text of the saved
    screenshot, after the five calls, each made once. *)
Theorem view_returns_encoded_screenshot bridge store python arguments screenshot buffer w :
  WIN32_AVAILABLE bridge = true ->
  Dispatch bridge "WScript.Shell" = Return tt ->
  AppActivate bridge "Adobe Illustrator" = Return tt ->
  ImageGrab_grab bridge = Return screenshot ->
  screenshot_save bridge screenshot = Return buffer ->
  handle_call_tool bridge store python "view" arguments w
  = (Return [ImageContent "image/jpeg" (b64encode bridge buffer)],
     World (fs w) (trace w ++ map (fun c => (c, None)) view_calls)).
Proof.
  intros Havailable Hshell Hactivate Hgrab Hsave.
  unfold handle_call_tool. cbn [String.eqb Ascii.eqb Bool.eqb].
  unfold capture_illustrator. rewrite Havailable. unfold_monad.
  rewrite Hshell, Hactivate, Hgrab. cbn [negb fs trace raised].
  rewrite Hsave. cbn [fs trace raised]. rewrite <- !app_assoc. reflexivity.
Qed.

Lemma view_returns_encoded_screenshot_witness :
  handle_call_tool Demo.bridge_ok Demo.store Demo.python "view" None Demo.empty_world
  = (Return [ImageContent "image/jpeg" (b64encode Demo.bridge_ok "jpeg:pixels")],
     World ∅ (map (fun c => (c, None)) view_calls)).
Proof.
  apply (view_returns_encoded_screenshot Demo.bridge_ok Demo.store Demo.python None
           "pixels" "jpeg:pixels" Demo.empty_world);
    reflexivity.
Defined.

(** ** The template tools *)

Lemma concat_map_contains {A} (f : A -> string) (x : A) (l : list A) :
  In x l -> PyStr.contains (f x) (PyStr.concat_map f l).
Proof.
  induction l as [|y l IH]; [contradiction |].
  cbn [PyStr.concat_map]. intros [-> | Hin].
  - apply contains_append_r, contains_refl.
  - now apply contains_append_l, IH.
Qed.

Lemma category_enum_mapped (c : string) :
  In c category_enum ->
  c <> "" /\ exists label, dict_get category_map c = Some label /\ label <> "".
Proof.
  intros Hin. cbn in Hin.
  repeat (destruct Hin as [<- | Hin];
          [ split; [discriminate |];
            eexists; split; [reflexivity | vm_compute; discriminate] |]).
  contradiction.
Qed.

(** X12: every category the registry's schema accepts is known to the
    dispatcher.  For such a category the answer is the filtered listing,
    the label in bold and one bullet line per prompt of that category in
    the store's order, when the store has the label, and the "not found"
    text otherwise. *)
Theorem recognized_category_listing bridge store python (args : gmap string value) c
    suggestions w :
  In c category_enum ->
  args !! "category" = Some (VStr c) ->
  get_prompt_suggestions store = Return suggestions ->
  exists label,
    dict_get category_map c = Some label
    /\ handle_call_tool bridge store python "get_prompt_suggestions" (Some args) w
       = (Return
            [TextContent
               match dict_get suggestions label with
               | Some prompts =>
                   "**" +:+ label +:+ "**" +:+ PyStr.nl +:+ PyStr.nl
                     +:+ PyStr.concat_map
                           (fun prompt => bullet +:+ " " +:+ prompt +:+ PyStr.nl)
                           prompts
               | None =>
                   "Category '" +:+ c +:+ "' not found. Available categories: "
                     +:+ PyStr.repr_list category_enum
               end],
          World (fs w) (trace w ++ [(Call_get_prompt_suggestions, None)])).
Proof.
  intros Hin Hcategory Hlisting.
  destruct (category_enum_mapped c Hin) as (Hnonempty & label & Hlabel & Hlabel_ne).
  exists label. split; [exact Hlabel |].
  unfold handle_call_tool. cbn [String.eqb Ascii.eqb Bool.eqb].
  unfold_monad. rewrite Hlisting. cbn [fst snd fs trace raised].
  rewrite (args_get_lookup args _ _ Hcategory), (truthy_VStr c Hnonempty), Hlabel.
  apply String.eqb_neq in Hlabel_ne. rewrite Hlabel_ne. cbn [negb andb].
  destruct (dict_get suggestions label) as [prompts|].
  - rewrite add_bullets_concat, !append_assoc. reflexivity.
  - rewrite category_keys. reflexivity.
Qed.

Lemma recognized_category_listing_witness :
  exists label,
    dict_get category_map "logos" = Some label
    /\ handle_call_tool Demo.bridge_ok Demo.store Demo.python "get_prompt_suggestions"
         (Some {[ "category" := VStr "logos" ]}) Demo.empty_world
       = (Return
            [TextContent
               match dict_get [ ("Logos", [ "Design a logo"; "Draw a monogram" ]);
                                ("Icons", [ "Draw a home icon" ]) ] label with
               | Some prompts =>
                   "**" +:+ label +:+ "**" +:+ PyStr.nl +:+ PyStr.nl
                     +:+ PyStr.concat_map
                           (fun prompt => bullet +:+ " " +:+ prompt +:+ PyStr.nl)
                           prompts
               | None =>
                   "Category '" +:+ "logos" +:+ "' not found. Available categories: "
                     +:+ PyStr.repr_list category_enum
               end],
          World (fs Demo.empty_world)
                (trace Demo.empty_world ++ [(Call_get_prompt_suggestions, None)])).
Proof.
  apply (recognized_category_listing Demo.bridge_ok Demo.store Demo.python
           {[ "category" := VStr "logos" ]} "logos" _ Demo.empty_world).
  - cbn. tauto.
  - reflexivity.
  - reflexivity.
Defined.

Lemma add_tips_concat (result_text : string) (tips : list string) :
  fold_left (fun result_text tip => result_text +:+ tip +:+ PyStr.nl) tips result_text
  = result_text +:+ PyStr.concat_map (fun tip => tip +:+ PyStr.nl) tips.
Proof.
  revert result_text.
  induction tips as [|tip tips IH]; intros result_text; cbn [fold_left PyStr.concat_map].
  - now rewrite append_empty_r.
  - rewrite IH. now rewrite !append_assoc.
Qed.

(** X13: [get_prompting_tips] ignores its arguments and returns one text
    item: the header followed by the store's tips in their order, each on
    a line of its own; every tip of the store is in the text. *)
Theorem tips_listing bridge store python arguments tips w :
  get_prompting_tips store = Return tips ->
  handle_call_tool bridge store python "get_prompting_tips" arguments w
  = (Return [TextContent
               (tips_header +:+ PyStr.concat_map (fun tip => tip +:+ PyStr.nl) tips)],
     World (fs w) (trace w ++ [(Call_get_prompting_tips, None)]))
  /\ forall tip, In tip tips ->
       PyStr.contains (tip +:+ PyStr.nl)
         (tips_header +:+ PyStr.concat_map (fun tip => tip +:+ PyStr.nl) tips).
Proof.
  intros Htips. split.
  - unfold handle_call_tool. cbn [String.eqb Ascii.eqb Bool.eqb].
    unfold_monad. rewrite Htips. cbn [fst snd fs trace raised].
    now rewrite add_tips_concat.
  - intros tip Hin. apply contains_append_l.
    now apply (concat_map_contains (fun tip => tip +:+ PyStr.nl)).
Qed.

Lemma tips_listing_witness :
  handle_call_tool Demo.bridge_ok Demo.store Demo.python "get_prompting_tips"
    (Some {[ "category" := VStr "logos" ]}) Demo.empty_world
  = (Return [TextContent
               (tips_header
                  +:+ PyStr.concat_map (fun tip => tip +:+ PyStr.nl)
                        [ "Be specific"; "Name the colors" ])],
     World (fs Demo.empty_world)
           (trace Demo.empty_world ++ [(Call_get_prompting_tips, None)]))
  /\ forall tip, In tip [ "Be specific"; "Name the colors" ] ->
       PyStr.contains (tip +:+ PyStr.nl)
         (tips_header
            +:+ PyStr.concat_map (fun tip => tip +:+ PyStr.nl)
                  [ "Be specific"; "Name the colors" ]).
Proof.
  apply (tips_listing Demo.bridge_ok Demo.store Demo.python
           (Some {[ "category" := VStr "logos" ]})
           [ "Be specific"; "Name the colors" ] Demo.empty_world).
  reflexivity.
Defined.

(** X14: with a known template id and parameters that are not empty, when
    the store's formatting returns, [get_advanced_template] returns the
    formatted text as it is, with no heading; the store is asked for the
    catalog and then for the formatting, once each. *)
Theorem formatted_template_verbatim bridge store python (args : gmap string value) t
    parameters templates template formatted w :
  args !! "template_type" = Some (VStr t) ->
  t <> "" ->
  args !! "parameters" = Some parameters ->
  truthy parameters = true ->
  get_advanced_templates store = Return templates ->
  dict_get templates t = Some template ->
  format_advanced_template store t parameters = Return formatted ->
  handle_call_tool bridge store python "get_advanced_template" (Some args) w
  = (Return [TextContent formatted],
     World (fs w)
           (trace w ++ [(Call_get_advanced_templates, None);
                        (Call_format_advanced_template t parameters, None)])).
Proof.
  intros Htype Hnonempty Hparams Htruthy Hcatalog Hknown Hformat.
  unfold handle_call_tool. cbn [String.eqb Ascii.eqb Bool.eqb].
  rewrite (args_get_lookup args _ _ Htype), (truthy_args_lookup args _ _ Htype).
  cbn [from_option id]. rewrite Hparams. cbn [from_option id].
  rewrite (truthy_VStr t Hnonempty), Htruthy. cbn [negb].
  unfold_monad. rewrite Hcatalog. cbn [fst snd fs trace raised].
  rewrite Hknown, Hformat. cbn [fst snd fs trace raised].
  rewrite <- app_assoc. reflexivity.
Qed.

Lemma formatted_template_verbatim_witness :
  handle_call_tool Demo.bridge_ok Demo.store Demo.python "get_advanced_template"
    (Some {[ "template_type" := VStr "icon_set";
             "parameters" := VMap {[ "count" := VStr "12" ]} ]})
    Demo.empty_world
  = (Return [TextContent "Create 12 icons"],
     World (fs Demo.empty_world)
           (trace Demo.empty_world
              ++ [(Call_get_advanced_templates, None);
                  (Call_format_advanced_template "icon_set"
                     (VMap {[ "count" := VStr "12" ]}), None)])).
Proof.
  apply (formatted_template_verbatim Demo.bridge_ok Demo.store Demo.python
           {[ "template_type" := VStr "icon_set";
              "parameters" := VMap {[ "count" := VStr "12" ]} ]}
           "icon_set" (VMap {[ "count" := VStr "12" ]})
           Demo.templates "Create {count} icons" "Create 12 icons"
           Demo.empty_world);
    [ reflexivity | discriminate | reflexivity | reflexivity | reflexivity
    | reflexivity | reflexivity ].
Defined.

Lemma is_ascii_replace_underscore (s : string) :
  PyStr.is_ascii (PyStr.replace "_" " " s) = PyStr.is_ascii s.
Proof.
  unfold PyStr.replace. induction s as [|c s IH]; [reflexivity |].
  cbn [PyStr.map_chars PyStr.is_ascii]. rewrite IH.
  destruct (Ascii.eqb_spec c "_") as [-> | _]; reflexivity.
Qed.

(** X15: with a known template id and no parameters, or empty ones,
    [get_advanced_template] returns the heading and the raw template with
    its placeholders; the store's formatting is not called.  The heading
    is the title-cased id, underscores turned into spaces, as Python
    title-cases it; for an id in ASCII that is the title-casing of
    [PyStr.title]. *)
Theorem raw_template_without_parameters bridge store python
    (args : gmap string value) t templates template w :
  args !! "template_type" = Some (VStr t) ->
  t <> "" ->
  args !! "parameters" = None
  \/ (exists parameters,
        args !! "parameters" = Some parameters /\ truthy parameters = false) ->
  get_advanced_templates store = Return templates ->
  dict_get templates t = Some template ->
  handle_call_tool bridge store python "get_advanced_template" (Some args) w
  = (Return [TextContent
               ("**" +:+ str_title python (PyStr.replace "_" " " t)
                     +:+ " Template:**" +:+ PyStr.nl +:+ PyStr.nl +:+ template)],
     World (fs w) (trace w ++ [(Call_get_advanced_templates, None)]))
  /\ (PyStr.is_ascii t = true ->
      str_title python (PyStr.replace "_" " " t)
      = PyStr.title (PyStr.replace "_" " " t)).
Proof.
  intros Htype Hnonempty Hparams Hcatalog Hknown. split.
  - unfold handle_call_tool. cbn [String.eqb Ascii.eqb Bool.eqb].
    rewrite (args_get_lookup args _ _ Htype), (truthy_args_lookup args _ _ Htype).
    cbn [from_option id].
    assert (Hfalsy : truthy (default (VMap ∅) (args !! "parameters")) = false).
    { destruct Hparams as [-> | (parameters & -> & Hfalsy)]; [reflexivity | exact Hfalsy]. }
    rewrite Hfalsy, (truthy_VStr t Hnonempty). cbn [negb].
    unfold_monad. rewrite Hcatalog. cbn [fst snd fs trace raised].
    rewrite Hknown. reflexivity.
  - intros Hascii. unfold str_title.
    now rewrite is_ascii_replace_underscore, Hascii.
Qed.

Lemma raw_template_without_parameters_witness :
  handle_call_tool Demo.bridge_ok Demo.store Demo.python "get_advanced_template"
    (Some {[ "template_type" := VStr "icon_set" ]}) Demo.empty_world
  = (Return [TextContent
               ("**" +:+ "Icon Set" +:+ " Template:**" +:+ PyStr.nl +:+ PyStr.nl
                     +:+ "Create {count} icons")],
     World (fs Demo.empty_world)
           (trace Demo.empty_world ++ [(Call_get_advanced_templates, None)])).
Proof.
  apply (raw_template_without_parameters Demo.bridge_ok Demo.store Demo.python
           {[ "template_type" := VStr "icon_set" ]} "icon_set"
           Demo.templates "Create {count} icons" Demo.empty_world);
    [ reflexivity | discriminate | left; reflexivity | reflexivity | reflexivity ].
Defined.

(** X16: only a [KeyError] of the store's formatting is answered with the
    raw template.  Any other exception it raises gives the text
    "Error: ..." alone, without the template. *)
Theorem other_format_errors_drop_template bridge store python (args : gmap string value) t
    parameters templates template e w :
  args !! "template_type" = Some (VStr t) ->
  t <> "" ->
  args !! "parameters" = Some parameters ->
  truthy parameters = true ->
  get_advanced_templates store = Return templates ->
  dict_get templates t = Some template ->
  format_advanced_template store t parameters = Raise e ->
  exn_cls e <> KeyError ->
  handle_call_tool bridge store python "get_advanced_template" (Some args) w
  = (Return [TextContent ("Error: " +:+ exn_str e)],
     World (fs w)
           (trace w ++ [(Call_get_advanced_templates, None);
                        (Call_format_advanced_template t parameters, Some e)])).
Proof.
  intros Htype Hnonempty Hparams Htruthy Hcatalog Hknown Hformat Hclass.
  unfold handle_call_tool. cbn [String.eqb Ascii.eqb Bool.eqb].
  rewrite (args_get_lookup args _ _ Htype), (truthy_args_lookup args _ _ Htype).
  cbn [from_option id]. rewrite Hparams. cbn [from_option id].
  rewrite (truthy_VStr t Hnonempty), Htruthy. cbn [negb].
  unfold_monad. rewrite Hcatalog. cbn [fst snd fs trace raised].
  rewrite Hknown, Hformat. cbn [fst snd fs trace raised].
  assert (Hne : exn_class_eqb (exn_cls e) KeyError = false)
    by (destruct (exn_cls e); try reflexivity; contradiction).
  rewrite Hne, <- app_assoc. reflexivity.
Qed.

Lemma other_format_errors_drop_template_witness :
  handle_call_tool Demo.bridge_ok Demo.store Demo.python "get_advanced_template"
    (Some {[ "template_type" := VStr "icon_set";
             "parameters" := VStr "count=12" ]})
    Demo.empty_world
  = (Return [TextContent "Error: argument after ** must be a mapping, not str"],
     World (fs Demo.empty_world)
           (trace Demo.empty_world
              ++ [(Call_get_advanced_templates, None);
                  (Call_format_advanced_template "icon_set" (VStr "count=12"),
                   Some (Exn TypeError
                           "argument after ** must be a mapping, not str"))])).
Proof.
  apply (other_format_errors_drop_template Demo.bridge_ok Demo.store Demo.python
           {[ "template_type" := VStr "icon_set";
              "parameters" := VStr "count=12" ]}
           "icon_set" (VStr "count=12")
           Demo.templates "Create {count} icons"
           (Exn TypeError "argument after ** must be a mapping, not str")
           Demo.empty_world);
    [ reflexivity | discriminate | reflexivity | reflexivity | reflexivity
    | reflexivity | reflexivity | discriminate ].
Defined.

(** ** The client configuration hint *)

Lemma collapse_escape (path : string) :
  collapse_backslashes (escape_backslashes path) = path.
Proof.
  unfold escape_backslashes.
  induction path as [|c path IH]; [reflexivity |].
  cbn [str_replace_char].
  destruct (Ascii.eqb c PyStr.backslash) eqn:Hc.
  - apply Ascii.eqb_eq in Hc as ->.
    rewrite !append_String, append_empty_l.
    cbn [collapse_backslashes]. rewrite Ascii.eqb_refl. now rewrite IH.
  - cbn [collapse_backslashes]. rewrite Hc. now rewrite IH.
Qed.

Lemma starts_contains (sub s : string) :
  (exists after, s = sub +:+ after) -> PyStr.contains sub s.
Proof. intros (after & ->). exists "", after. reflexivity. Qed.

Lemma starts_step (p sub s : string) :
  (exists after, s = sub +:+ after) ->
  exists after, p +:+ s = (p +:+ sub) +:+ after.
Proof. intros (after & ->). exists after. now rewrite append_assoc. Qed.

Lemma starts_here (sub after : string) : exists rest, sub +:+ after = sub +:+ rest.
Proof. now exists after. Qed.

(** X17: the hint quotes the interpreter path after "command" and the
    server path in "args", with every backslash doubled; reading two
    backslashes as one gives back [sys.executable] and the path of the
    server file, whatever they are. *)
Theorem client_config_hint_paths sys_executable server_file :
  let q := String PyStr.dquote EmptyString in
  exists python_path server_path,
    PyStr.contains
      (q +:+ "command" +:+ q +:+ ": " +:+ q +:+ python_path +:+ q +:+ ",")
      (_print_client_config_hint sys_executable server_file)
    /\ PyStr.contains
         (q +:+ "args" +:+ q +:+ ": [" +:+ PyStr.nl +:+ "        "
            +:+ q +:+ server_path +:+ q +:+ PyStr.nl)
         (_print_client_config_hint sys_executable server_file)
    /\ collapse_backslashes python_path = sys_executable
    /\ collapse_backslashes server_path = server_file.
Proof.
  cbn zeta.
  exists (escape_backslashes sys_executable), (escape_backslashes server_file).
  split; [| split; [| split; apply collapse_escape]].
  - unfold _print_client_config_hint. cbn zeta. rewrite !append_assoc.
    do 18 apply contains_append_l.
    apply starts_contains. do 7 apply starts_step. apply starts_here.
  - unfold _print_client_config_hint. cbn zeta. rewrite !append_assoc.
    do 28 apply contains_append_l.
    apply starts_contains. do 9 apply starts_step. apply starts_here.
Qed.
